(** * aishe: the RAG API client and its interactive command-line session

    A shallow embedding of [src/api_client.py] and [src/cli.py].

    Python [str] values are Rocq strings holding the UTF-8 encoding of the
    text; JSON-decoded values are the inductive [pyval]; exceptions are values
    of [exception] with the class hierarchy of Python and httpx written out;
    the HTTP connection, standard output and standard input are an explicit
    [World] threaded through a state-and-exception monad, which records every
    effect in a chronological trace. *)

From Stdlib Require Import String Ascii List ZArith Bool Lia Floats DecimalString.
Import ListNotations.
Open Scope string_scope.

Set Warnings "-register-all".

(* ------------------------------------------------------------------ *)
(** ** Python strings *)

Definition code (c : ascii) : N := N_of_ascii c.

Definition between (lo hi : N) (c : ascii) : bool :=
  ((lo <=? code c) && (code c <=? hi))%N.

Definition byte_is (n : N) (c : ascii) : bool := (code c =? n)%N.

(** The characters [str.strip()] removes: the code points for which
    [str.isspace()] holds.  One byte: U+0009..U+000D, U+001C..U+0020. *)
Definition whitespace1 (c : ascii) : bool :=
  between 9 13 c || between 28 32 c.

(** Two bytes: U+0085 (C2 85) and U+00A0 (C2 A0). *)
Definition whitespace2 (c1 c2 : ascii) : bool :=
  byte_is 194 c1 && (byte_is 133 c2 || byte_is 160 c2).

(** Three bytes: U+1680 (E1 9A 80), U+2000..U+200A (E2 80 80..8A),
    U+2028, U+2029, U+202F (E2 80 A8, A9, AF), U+205F (E2 81 9F),
    U+3000 (E3 80 80). *)
Definition whitespace3 (c1 c2 c3 : ascii) : bool :=
  (byte_is 225 c1 && byte_is 154 c2 && byte_is 128 c3)
  || (byte_is 226 c1 && byte_is 128 c2
      && (between 128 138 c3 || byte_is 168 c3 || byte_is 169 c3 || byte_is 175 c3))
  || (byte_is 226 c1 && byte_is 129 c2 && byte_is 159 c3)
  || (byte_is 227 c1 && byte_is 128 c2 && byte_is 128 c3).

(** [s.lstrip()] *)
Fixpoint lstrip (s : string) : string :=
  match s with
  | "" => ""
  | String c1 r1 =>
      if whitespace1 c1 then lstrip r1
      else
        match r1 with
        | "" => s
        | String c2 r2 =>
            if whitespace2 c1 c2 then lstrip r2
            else
              match r2 with
              | "" => s
              | String c3 r3 => if whitespace3 c1 c2 c3 then lstrip r3 else s
              end
        end
  end.

(** Every character of [s] is whitespace (true of the empty string). *)
Definition blank (s : string) : bool := lstrip s =? "".

(** [s.rstrip()]: cut at the first position from which only whitespace
    follows. *)
Fixpoint rstrip (s : string) : string :=
  match s with
  | "" => ""
  | String c r => if blank s then "" else String c (rstrip r)
  end.

(** [s.strip()] *)
Definition strip (s : string) : string := rstrip (lstrip s).

(** [p] is one whitespace character. *)
Definition space_char (p : string) : bool :=
  match p with
  | String c1 "" => whitespace1 c1
  | String c1 (String c2 "") => whitespace2 c1 c2
  | String c1 (String c2 (String c3 "")) => whitespace3 c1 c2 c3
  | _ => false
  end.

(** The first character of [s] is whitespace. *)
Definition starts_with_space (s : string) : bool :=
  match s with
  | "" => false
  | String c1 r1 =>
      whitespace1 c1
      || match r1 with
         | "" => false
         | String c2 r2 =>
             whitespace2 c1 c2
             || match r2 with
                | "" => false
                | String c3 _ => whitespace3 c1 c2 c3
                end
         end
  end.

Fixpoint all_chars (p : ascii -> bool) (s : string) : bool :=
  match s with
  | "" => true
  | String c r => p c && all_chars p r
  end.

(** [s.rstrip(chars)] for a set [p] of one-byte characters. *)
Fixpoint rstrip_chars (p : ascii -> bool) (s : string) : string :=
  match s with
  | "" => ""
  | String c r => if all_chars p s then "" else String c (rstrip_chars p r)
  end.

Definition lower_char (c : ascii) : ascii :=
  if between 65 90 c then ascii_of_N (code c + 32) else c.

(** [s.lower()] on the ASCII letters.  Python also lowers letters outside
    ASCII; none of them lowers to text made of ASCII letters of the exit
    keywords, so membership in the keyword list is not affected. *)
Fixpoint lower (s : string) : string :=
  match s with
  | "" => ""
  | String c r => String (lower_char c) (lower r)
  end.

(** [sub in s] *)
Fixpoint contains (sub s : string) : bool :=
  prefix sub s
  || match s with
     | "" => false
     | String _ r => contains sub r
     end.

Fixpoint repeat_str (n : nat) (s : string) : string :=
  match n with
  | O => ""
  | S n => s ++ repeat_str n s
  end.

Fixpoint join (sep : string) (l : list string) : string :=
  match l with
  | [] => ""
  | [x] => x
  | x :: r => x ++ sep ++ join sep r
  end.

Definition continuation (c : ascii) : bool := between 128 191 c.

(** The characters of a string, each with its continuation bytes. *)
Fixpoint chars_from (cur : string) (s : string) : list string :=
  match s with
  | "" => [cur]
  | String c r =>
      if continuation c then chars_from (cur ++ String c "") r
      else cur :: chars_from (String c "") r
  end.

Definition chars (s : string) : list string :=
  match s with
  | "" => []
  | String c r => chars_from (String c "") r
  end.

(** [str(n)] for an int. *)
Definition str_int (n : Z) : string := NilZero.string_of_int (Z.to_int n).

(* ------------------------------------------------------------------ *)
(** ** Values decoded from JSON *)

Inductive pyval : Type :=
| PNone
| PBool (b : bool)
| PInt (n : Z)
| PFloat (x : float)
| PStr (s : string)
| PList (items : list pyval)
| PDict (entries : list (string * pyval)).

Inductive pytype : Type :=
| NoneType | TBool | TInt | TFloat | TStr | TList | TDict.

Definition type_of (v : pyval) : pytype :=
  match v with
  | PNone => NoneType
  | PBool _ => TBool
  | PInt _ => TInt
  | PFloat _ => TFloat
  | PStr _ => TStr
  | PList _ => TList
  | PDict _ => TDict
  end.

(** [d.get(key)] on the entries of a dict. *)
Fixpoint lookup (key : string) (d : list (string * pyval)) : option pyval :=
  match d with
  | [] => None
  | (k, v) :: r => if k =? key then Some v else lookup key r
  end.

(** Truth value of a decoded value, as [if v:] tests it. *)
Definition truthy (v : pyval) : bool :=
  match v with
  | PNone => false
  | PBool b => b
  | PInt n => negb (n =? 0)%Z
  | PFloat x => negb (PrimFloat.eqb x 0%float)
  | PStr s => negb (s =? "")
  | PList l => match l with [] => false | _ => true end
  | PDict d => match d with [] => false | _ => true end
  end.

(** [v == s] for a str literal [s]. *)
Definition eq_str (v : pyval) (s : string) : bool :=
  match v with
  | PStr t => t =? s
  | _ => false
  end.

(* ------------------------------------------------------------------ *)
(** ** HTTP messages (httpx) *)

Inductive http_method : Type := GET | POST.

Record Request : Type := {
  method : http_method;
  url : string;
  json : option pyval
}.

(** A response as the client reads it: [decoded] is what [response.json()]
    gives, the decoded body or the description of the decoding error. *)
Record Response : Type := {
  status_code : Z;
  text : string;
  decoded : pyval + string
}.

(** [response.is_success] *)
Definition is_success (r : Response) : bool :=
  ((200 <=? status_code r) && (status_code r <=? 299))%Z.

(* ------------------------------------------------------------------ *)
(** ** Exceptions *)

(** The classes without a payload of their own: Python's built-in ones, the
    ones of httpx and the three of [api_client.py]. *)
Inductive exc_class : Type :=
| BaseException | GeneratorExit | KeyboardInterrupt | Exception
| ValueError | JSONDecodeError | UnicodeDecodeError
| LookupError | KeyError | TypeError | AttributeError | EOFError
| RuntimeError | OSError
| HTTPError | RequestError | TransportError
| TimeoutException | ConnectTimeout | ReadTimeout | WriteTimeout | PoolTimeout
| NetworkError | ConnectError | ReadError | WriteError | CloseError
| ProtocolError | LocalProtocolError | RemoteProtocolError
| ProxyError | UnsupportedProtocol | DecodingError | TooManyRedirects
| InvalidURL | CookieConflict
| APIClientError | ServerNotReachableError | ServerError.

Definition base (c : exc_class) : option exc_class :=
  match c with
  | BaseException => None
  | GeneratorExit | KeyboardInterrupt | Exception => Some BaseException
  | ValueError | LookupError | TypeError | AttributeError | EOFError
  | RuntimeError | OSError | HTTPError | InvalidURL | CookieConflict
  | APIClientError => Some Exception
  | JSONDecodeError | UnicodeDecodeError => Some ValueError
  | KeyError => Some LookupError
  | RequestError => Some HTTPError
  | TransportError | DecodingError | TooManyRedirects => Some RequestError
  | TimeoutException | NetworkError | ProtocolError | ProxyError
  | UnsupportedProtocol => Some TransportError
  | ConnectTimeout | ReadTimeout | WriteTimeout | PoolTimeout =>
      Some TimeoutException
  | ConnectError | ReadError | WriteError | CloseError => Some NetworkError
  | LocalProtocolError | RemoteProtocolError => Some ProtocolError
  | ServerNotReachableError | ServerError => Some APIClientError
  end.

Definition exc_class_eq_dec (a b : exc_class) : {a = b} + {a <> b}.
Proof. decide equality. Defined.

Definition same_class (a b : exc_class) : bool :=
  if exc_class_eq_dec a b then true else false.

(** The class and its bases, nearest first; no chain is longer than 7. *)
Fixpoint mro (depth : nat) (c : exc_class) : list exc_class :=
  c :: match depth, base c with
       | S d, Some b => mro d b
       | _, _ => []
       end.

Definition issubclass (c d : exc_class) : bool :=
  existsb (same_class d) (mro 7 c).

(** An exception: an instance of a payload-free class with its [str()], an
    [httpx.HTTPStatusError] (a subclass of [HTTPError]) with the response it
    carries, or the [SystemExit] (a subclass of [BaseException]) that
    [sys.exit(code)] raises. *)
Inductive exception : Type :=
| Exc (cls : exc_class) (message : string)
| HTTPStatusError (message : string) (response : Response)
| SystemExit (exit_code : Z).

(** [isinstance(e, c)], which decides whether [except c] catches [e]. *)
Definition isinstance (e : exception) (c : exc_class) : bool :=
  match e with
  | Exc k _ => issubclass k c
  | HTTPStatusError _ _ => issubclass HTTPError c
  | SystemExit _ => same_class c BaseException
  end.

(** [str(e)] *)
Definition str_exc (e : exception) : string :=
  match e with
  | Exc _ m => m
  | HTTPStatusError m _ => m
  | SystemExit n => str_int n
  end.

(* ------------------------------------------------------------------ *)
(** ** The texts the Python runtime and httpx produce

    The client interpolates values into its messages and wraps exceptions the
    runtime raises; the texts involved are fixed by the interpreter and httpx,
    not by this repository, and the model takes them as a parameter. *)

Record Runtime : Type := {
  (** [repr(v)] *)
  py_repr : pyval -> string;
  (** [str()] of the [TypeError] of [v[key]] for a [v] that is not a dict *)
  not_subscriptable : pytype -> string;
  (** [str()] of the [TypeError] of iterating a value that is not iterable *)
  not_iterable : pytype -> string;
  (** [str()] of the [AttributeError] of [v.name] for a missing attribute *)
  no_attribute : pytype -> string -> string;
  (** [str()] of the [HTTPStatusError] of [raise_for_status()] *)
  status_error : Response -> string
}.

(** A result or a raised exception. *)
Inductive outcome (A : Type) : Type :=
| Return (a : A)
| Raise (e : exception).

Arguments Return {A} a.
Arguments Raise {A} e.

Definition obind {A B : Type} (m : outcome A) (k : A -> outcome B) : outcome B :=
  match m with
  | Return a => k a
  | Raise e => Raise e
  end.

Fixpoint omap {A B : Type} (f : A -> outcome B) (l : list A) : outcome (list B) :=
  match l with
  | [] => Return []
  | x :: r => obind (f x) (fun y => obind (omap f r) (fun ys => Return (y :: ys)))
  end.

Section Values.

Variable rt : Runtime.

(** [str(v)], which is also what an f-string field [{v}] produces. *)
Definition py_str (v : pyval) : string :=
  match v with
  | PStr s => s
  | _ => py_repr rt v
  end.

(** [v[key]] for a str [key]. *)
Definition getitem (v : pyval) (key : string) : outcome pyval :=
  match v with
  | PDict d =>
      match lookup key d with
      | Some x => Return x
      | None => Raise (Exc KeyError (py_repr rt (PStr key)))
      end
  | _ => Raise (Exc TypeError (not_subscriptable rt (type_of v)))
  end.

(** [v.get(key, default)], a method of dicts only. *)
Definition dict_get (v : pyval) (key : string) (default : pyval)
  : outcome pyval :=
  match v with
  | PDict d =>
      match lookup key d with
      | Some x => Return x
      | None => Return default
      end
  | _ => Raise (Exc AttributeError (no_attribute rt (type_of v) "get"))
  end.

(** The items [for x in v] visits: the elements of a list, the keys of a dict,
    the characters of a str. *)
Definition iterate (v : pyval) : outcome (list pyval) :=
  match v with
  | PList l => Return l
  | PDict d => Return (map (fun kv => PStr (fst kv)) d)
  | PStr s => Return (map PStr (chars s))
  | _ => Raise (Exc TypeError (not_iterable rt (type_of v)))
  end.

End Values.

(* ------------------------------------------------------------------ *)
(** ** The world outside the process *)

(** What [self.client.get] and [self.client.post] can do. *)
Inductive transport_result : Type :=
| Responds (r : Response)
| Fails (e : exception).

(** What a call of [input()] can deliver. *)
Inductive input_event : Type :=
| Line (s : string)
| Interrupt
| EndOfFile.

Inductive event : Type :=
| Acquire                    (* httpx.Client(timeout=...) *)
| Send (req : Request)       (* self.client.get / self.client.post *)
| Release                    (* self.client.close() *)
| Print (s : string)         (* print(s) *)
| Prompt (s : string)        (* the prompt input(s) writes *)
| Input (i : input_event)    (* what input() delivered *)
| PrintExc (e : exception).  (* traceback.print_exc() *)

(** The server answers the n-th request of the session; the environment
    variables are fixed; [client_failure] is the exception with which httpx
    refuses to build its client in this environment (a proxy variable it
    cannot use, a package it lacks), [None] when it builds it; [trace] lists
    the effects so far, oldest first. *)
Record World : Type := {
  server : nat -> Request -> transport_result;
  environ : string -> option string;
  client_failure : option exception;
  trace : list event
}.

Definition is_send (ev : event) : bool :=
  match ev with Send _ => true | _ => false end.

Definition is_release (ev : event) : bool :=
  match ev with Release => true | _ => false end.

Definition is_prompt (ev : event) : bool :=
  match ev with Prompt _ | Input _ => true | _ => false end.

(** The requests issued so far, oldest first. *)
Fixpoint requests (t : list event) : list Request :=
  match t with
  | [] => []
  | Send r :: t' => r :: requests t'
  | _ :: t' => requests t'
  end.

(** How often the connection was released. *)
Definition releases (t : list event) : nat := List.length (filter is_release t).

Definition record (ev : event) (w : World) : World :=
  {| server := server w; environ := environ w;
     client_failure := client_failure w; trace := trace w ++ [ev] |}.

(** The world [w] after the further effects [t]. *)
Definition extend (w : World) (t : list event) : World :=
  {| server := server w; environ := environ w;
     client_failure := client_failure w; trace := trace w ++ t |}.

(** [f] changes the world only by adding effects that satisfy [P]. *)
Definition adds_only {X : Type} (P : event -> bool) (f : World -> X * World)
  : Prop :=
  forall w, exists t, snd (f w) = extend w t /\ forallb P t = true.

Definition no_release (ev : event) : bool := negb (is_release ev).

Definition no_prompt (ev : event) : bool := negb (is_prompt ev).

Definition any_event (ev : event) : bool := true.

(* ------------------------------------------------------------------ *)
(** ** State and exceptions *)

Definition M (A : Type) : Type := World -> outcome A * World.

Definition ret {A : Type} (a : A) : M A := fun w => (Return a, w).

Definition raise {A : Type} (e : exception) : M A := fun w => (Raise e, w).

Definition lift {A : Type} (o : outcome A) : M A := fun w => (o, w).

Definition bind {A B : Type} (m : M A) (k : A -> M B) : M B :=
  fun w =>
    match m w with
    | (Return a, w') => k a w'
    | (Raise e, w') => (Raise e, w')
    end.

(** [try: m  except ... as e: h e] *)
Definition try_except {A : Type} (m : M A) (h : exception -> M A) : M A :=
  fun w =>
    match m w with
    | (Return a, w') => (Return a, w')
    | (Raise e, w') => h e w'
    end.

Definition emit (ev : event) : M unit := fun w => (Return tt, record ev w).

Declare Scope py_scope.
Delimit Scope py_scope with py.
Notation "x <- m ;; k" := (bind m (fun x => k))
  (at level 61, m at next level, right associativity) : py_scope.
Notation "m ;; k" := (bind m (fun _ => k))
  (at level 61, right associativity) : py_scope.
Open Scope py_scope.

Definition print (s : string) : M unit := emit (Print s).

(** What the next request meets, were it [req]. *)
Definition next_reply (w : World) (req : Request) : transport_result :=
  server w (List.length (requests (trace w))) req.

(** One request over the connection: the server's answer to it, or the
    exception httpx raises. *)
Definition send (req : Request) : M Response :=
  fun w =>
    match next_reply w req with
    | Responds r => (Return r, record (Send req) w)
    | Fails e => (Raise e, record (Send req) w)
    end.

(* ------------------------------------------------------------------ *)
(** ** api_client.py *)

Record APIAnswer : Type := {
  answer : pyval;
  sources : list pyval;
  processing_time : pyval
}.

Record APIHealth : Type := {
  status : pyval;
  ollama_accessible : pyval;
  health_message : pyval
}.

Record RAGAPIClient : Type := {
  base_url : string;
  timeout : float
}.

Definition slash (c : ascii) : bool := byte_is 47 c.

(** [self.client.get(f"{self.base_url}/health")] *)
Definition health_request (self : RAGAPIClient) : Request :=
  {| method := GET; url := base_url self ++ "/health"; json := None |}.

(** [self.client.post(f"{self.base_url}/api/v1/ask",
                      json={"question": question.strip()})] *)
Definition question_request (self : RAGAPIClient) (question : string)
  : Request :=
  {| method := POST;
     url := base_url self ++ "/api/v1/ask";
     json := Some (PDict [("question", PStr (strip question))]) |}.

Definition default_timeout : float := 120%float.

(** [httpx.Client(timeout=timeout)]: the connection is acquired, unless
    httpx raises instead of building the client. *)
Definition new_client : M unit :=
  fun w =>
    match client_failure w with
    | Some e => (Raise e, w)
    | None => (Return tt, record Acquire w)
    end.

(** [RAGAPIClient.__init__] *)
Definition RAGAPIClient_init (url : option string) (timeout : float)
  : M RAGAPIClient :=
  fun w =>
    let url' :=
      match url with
      | Some u => u
      | None =>
          match environ w "AISHE_API_URL" with
          | Some u => u
          | None => "http://localhost:8000"
          end
      end in
    (new_client ;;
     ret {| base_url := rstrip_chars slash url'; timeout := timeout |}) w.

(** [RAGAPIClient.__enter__] *)
Definition RAGAPIClient_enter (self : RAGAPIClient) : M RAGAPIClient :=
  ret self.

(** [RAGAPIClient.close] *)
Definition close (self : RAGAPIClient) : M unit := emit Release.

(** [RAGAPIClient.__exit__] *)
Definition RAGAPIClient_exit (self : RAGAPIClient) : M unit := close self.

Section Client.

Variable rt : Runtime.

(** [response.raise_for_status()] *)
Definition raise_for_status (r : Response) : M unit :=
  if is_success r then ret tt
  else raise (HTTPStatusError (status_error rt r) r).

(** [response.json()]: the decoded body, or a [json.JSONDecodeError], which
    is a subclass of [ValueError]. *)
Definition response_json (r : Response) : outcome pyval :=
  match decoded r with
  | inl v => Return v
  | inr description => Raise (Exc JSONDecodeError description)
  end.

(** The [except] clauses of [check_health], in the order of the source. *)
Definition check_health_except (self : RAGAPIClient) (e : exception)
  : M APIHealth :=
  if isinstance e ConnectError then
    raise (Exc ServerNotReachableError
             ("Cannot connect to server at " ++ base_url self ++ ". "
              ++ "Make sure the server is running."))
  else if isinstance e TimeoutException then
    raise (Exc ServerNotReachableError
             ("Request to " ++ base_url self ++ " timed out."))
  else
    match e with
    | HTTPStatusError _ response =>
        raise (Exc ServerError
                 ("Server returned error: " ++ str_int (status_code response)))
    | _ =>
        if isinstance e Exception then
          raise (Exc APIClientError ("Unexpected error: " ++ str_exc e))
        else raise e
    end.

(** [RAGAPIClient.check_health] *)
Definition check_health (self : RAGAPIClient) : M APIHealth :=
  try_except
    (response <- send (health_request self) ;;
     raise_for_status response ;;
     data <- lift (response_json response) ;;
     status <- lift (getitem rt data "status") ;;
     accessible <- lift (getitem rt data "ollama_accessible") ;;
     message <- lift (dict_get rt data "message" PNone) ;;
     ret {| status := status;
            ollama_accessible := accessible;
            health_message := message |})
    (check_health_except self).

(** One element of the comprehension that rebuilds the sources. *)
Definition convert_source (source : pyval) : outcome pyval :=
  obind (getitem rt source "number") (fun number =>
  obind (getitem rt source "title") (fun title =>
  obind (getitem rt source "url") (fun url =>
  Return (PDict [("number", number); ("title", title); ("url", url)])))).

(** [[{...} for source in data["sources"]]] *)
Definition convert_sources (data : pyval) : outcome (list pyval) :=
  obind (getitem rt data "sources") (fun listed =>
  obind (iterate rt listed) (fun items =>
  omap convert_source items)).

(** The detail [ask_question] reports for a failure status: the inner
    [try] reads [detail] from the decoded body, with [str()] of the body as
    the default; its bare [except] falls back to the raw text. *)
Definition error_detail (response : Response) : pyval :=
  match
    obind (response_json response) (fun error_data =>
    dict_get rt error_data "detail" (PStr (py_str rt error_data)))
  with
  | Return detail => detail
  | Raise _ => PStr (text response)
  end.

(** The [except] clauses of [ask_question], in the order of the source. *)
Definition ask_question_except (self : RAGAPIClient) (e : exception)
  : M APIAnswer :=
  if isinstance e ConnectError then
    raise (Exc ServerNotReachableError
             ("Cannot connect to server at " ++ base_url self ++ ". "
              ++ "Make sure the server is running with: nix run .#server"))
  else if isinstance e TimeoutException then
    raise (Exc ServerNotReachableError
             ("Request timed out after " ++ py_str rt (PFloat (timeout self))
              ++ " seconds. " ++ "The question might be too complex."))
  else
    match e with
    | HTTPStatusError _ response =>
        raise (Exc ServerError
                 ("Server error (" ++ str_int (status_code response) ++ "): "
                  ++ py_str rt (error_detail response)))
    | _ =>
        if isinstance e ValueError then raise e
        else if isinstance e Exception then
          raise (Exc APIClientError ("Unexpected error: " ++ str_exc e))
        else raise e
    end.

(** The [try] statement of [ask_question]. *)
Definition ask_request (self : RAGAPIClient) (question : string)
  : M APIAnswer :=
  try_except
    (response <- send (question_request self question) ;;
     raise_for_status response ;;
     data <- lift (response_json response) ;;
     sources <- lift (convert_sources data) ;;
     answer <- lift (getitem rt data "answer") ;;
     processing_time <- lift (getitem rt data "processing_time") ;;
     ret {| answer := answer;
            sources := sources;
            processing_time := processing_time |})
    (ask_question_except self).

(** [RAGAPIClient.ask_question] *)
Definition ask_question (self : RAGAPIClient) (question : string)
  : M APIAnswer :=
  if (question =? "") || (strip question =? "") then
    raise (Exc ValueError "Question cannot be empty")
  else ask_request self question.

End Client.

(* ------------------------------------------------------------------ *)
(** ** cli.py *)

Definition nl : string := String (ascii_of_nat 10) "".

Record RAGCLI : Type := {
  api_client : RAGAPIClient
}.

(** [RAGCLI.__init__] *)
Definition RAGCLI_init (api_url : option string) : M RAGCLI :=
  client <- RAGAPIClient_init api_url default_timeout ;;
  ret {| api_client := client |}.

(** [RAGCLI.print_banner] *)
Definition print_banner : M unit :=
  print (repeat_str 70 "=") ;;
  print "Wikipedia RAG Question Answering System" ;;
  print (repeat_str 70 "=") ;;
  print "Ask questions and get answers based on Wikipedia articles." ;;
  print "Type 'quit' or 'exit' to stop." ;;
  print (repeat_str 70 "=") ;;
  print "".

(** How one pass through the body of [while True] ends. *)
Inductive flow : Type := Continue | Break.

(** How [run] stands after a finite script of inputs: it returned, an
    exception left it, or it waits at the prompt for more input. *)
Inductive run_end : Type :=
| Returned
| Raised (e : exception)
| Waiting.

(** How the process stands: exited with a code, died of an exception no one
    caught, or still waiting at the prompt. *)
Inductive process_end : Type :=
| Exited (exit_code : Z)
| Died (e : exception)
| Blocked.

Definition exit_keywords : list string := ["quit"; "exit"; "q"].

Definition mem (s : string) (l : list string) : bool := existsb (String.eqb s) l.

Definition question_prompt : string := nl ++ "Your question: ".

(** [input(prompt)] when the console delivers [i]. *)
Definition input (prompt : string) (i : input_event) : M string :=
  emit (Prompt prompt) ;;
  emit (Input i) ;;
  match i with
  | Line s => ret s
  | Interrupt => raise (Exc KeyboardInterrupt "")
  | EndOfFile => raise (Exc EOFError "EOF when reading a line")
  end.

Section Session.

Variable rt : Runtime.

Definition rule : string := repeat_str 70 "─".

(** The loop over [result.sources] of [print_result]. *)
Fixpoint print_sources (l : list pyval) : M unit :=
  match l with
  | [] => ret tt
  | source :: rest =>
      number <- lift (getitem rt source "number") ;;
      title <- lift (getitem rt source "title") ;;
      print ("[" ++ py_str rt number ++ "] " ++ py_str rt title) ;;
      url <- lift (getitem rt source "url") ;;
      print ("    " ++ py_str rt url) ;;
      print_sources rest
  end.

(** [RAGCLI.print_result] *)
Definition print_result (result : APIAnswer) : M unit :=
  print (nl ++ rule) ;;
  print "ANSWER:" ;;
  print rule ;;
  print (py_str rt (answer result)) ;;
  match sources result with
  | [] => ret tt
  | _ =>
      print (nl ++ rule) ;;
      print "SOURCES:" ;;
      print rule ;;
      print_sources (sources result)
  end ;;
  print rule.

(** The health check at the start of [run]. *)
Definition startup (self : RAGCLI) : M unit :=
  try_except
    (print "Checking server connection..." ;;
     health <- check_health rt (api_client self) ;;
     (if eq_str (status health) "healthy" then
        print "✓ Connected to server"
      else
        print ("⚠ Server status: " ++ py_str rt (status health)) ;;
        if truthy (health_message health) then
          print ("  " ++ py_str rt (health_message health))
        else ret tt) ;;
     print "")
    (fun e =>
       if isinstance e ServerNotReachableError then
         print (nl ++ "❌ Error: " ++ str_exc e) ;;
         print (nl ++ "Please start the server first:") ;;
         print "  nix run .#server" ;;
         print (nl ++ "Or set AISHE_API_URL to point to a running server.") ;;
         raise (SystemExit 1)
       else if isinstance e Exception then
         print (nl ++ "⚠ Warning: Could not check server health: "
                ++ str_exc e) ;;
         print ("Continuing anyway..." ++ nl)
       else raise e).

(** One pass through the body of [while True], the console delivering [i];
    [ask] stands for [self.api_client.ask_question]. *)
Definition iteration_with (ask : string -> M APIAnswer) (i : input_event)
  : M flow :=
  try_except
    (line <- input question_prompt i ;;
     let question := strip line in
     if mem (lower question) exit_keywords then
       print (nl ++ "Goodbye!") ;;
       ret Break
     else if question =? "" then ret Continue
     else
       print (nl ++ "Searching Wikipedia and generating answer...") ;;
       result <- ask question ;;
       print_result result ;;
       ret Continue)
    (fun e =>
       if isinstance e KeyboardInterrupt then
         print (nl ++ nl ++ "Goodbye!") ;;
         ret Break
       else if isinstance e ServerNotReachableError then
         print (nl ++ "❌ Server Error: " ++ str_exc e) ;;
         print (nl ++ "The server may have stopped. Please restart it:") ;;
         print "  nix run .#server" ;;
         ret Continue
       else if isinstance e ServerError then
         print (nl ++ "❌ Server Error: " ++ str_exc e) ;;
         ret Continue
       else if isinstance e APIClientError then
         print (nl ++ "❌ Error: " ++ str_exc e) ;;
         ret Continue
       else if isinstance e Exception then
         print (nl ++ "Unexpected error: " ++ str_exc e) ;;
         emit (PrintExc e) ;;
         ret Continue
       else raise e).

(** [while True: ...] over the inputs the console delivers. *)
Fixpoint loop_with (ask : string -> M APIAnswer) (script : list input_event)
  (w : World) : run_end * World :=
  match script with
  | [] => (Waiting, record (Prompt question_prompt) w)
  | i :: rest =>
      match iteration_with ask i w with
      | (Return Break, w') => (Returned, w')
      | (Return Continue, w') => loop_with ask rest w'
      | (Raise e, w') => (Raised e, w')
      end
  end.

Definition iteration (self : RAGCLI) : input_event -> M flow :=
  iteration_with (ask_question rt (api_client self)).

Definition loop (self : RAGCLI) : list input_event -> World -> run_end * World :=
  loop_with (ask_question rt (api_client self)).

(** [RAGCLI.run] *)
Definition run (self : RAGCLI) (script : list input_event) (w : World)
  : run_end * World :=
  match (print_banner ;; startup self) w with
  | (Return _, w') => loop self script w'
  | (Raise e, w') => (Raised e, w')
  end.

(** How the process ends when [run] ends: a normal return ends it with code
    0, [sys.exit(n)] with code [n]. *)
Definition process_end_of (r : run_end) : process_end :=
  match r with
  | Returned => Exited 0
  | Raised (SystemExit n) => Exited n
  | Raised e => Died e
  | Waiting => Blocked
  end.

(** [main], run as the program. *)
Definition main (script : list input_event) (w : World)
  : process_end * World :=
  match RAGCLI_init None w with
  | (Raise e, w') => (process_end_of (Raised e), w')
  | (Return cli, w') =>
      (process_end_of (fst (run cli script w')), snd (run cli script w'))
  end.

End Session.

(* ------------------------------------------------------------------ *)
(** ** A reference runtime

    The texts of CPython 3.11: [repr] is exact on text without unprintable
    characters outside ASCII and on floats that have at most 15 significant
    decimal digits and a magnitude from 1e-4 up to 1e16 (where the shortest
    repr is the exact decimal expansion computed here).  The text of
    [HTTPStatusError] is abridged; no operation of the client lets it
    escape. *)

Definition char (n : nat) : string := String (ascii_of_nat n) "".

Definition hex_digit (n : N) : string :=
  String.substring (N.to_nat n) 1 "0123456789abcdef".

Definition escape_char (quote : ascii) (c : ascii) : string :=
  if (Ascii.eqb c quote || byte_is 92 c)%bool then char 92 ++ String c ""
  else if byte_is 9 c then char 92 ++ "t"
  else if byte_is 10 c then char 92 ++ "n"
  else if byte_is 13 c then char 92 ++ "r"
  else if (between 0 31 c || byte_is 127 c)%bool then
    char 92 ++ "x" ++ hex_digit (code c / 16) ++ hex_digit (code c mod 16)
  else String c "".

Fixpoint escape (quote : ascii) (s : string) : string :=
  match s with
  | "" => ""
  | String c r => escape_char quote c ++ escape quote r
  end.

Definition repr_str (s : string) : string :=
  let quote :=
    if (contains "'" s && negb (contains (char 34) s))%bool
    then ascii_of_nat 34 else ascii_of_nat 39 in
  String quote (escape quote s) ++ String quote "".

Fixpoint rstrip_zeros (s : string) : string :=
  match s with
  | "" => ""
  | String c r => if all_chars (byte_is 48) s then "" else String c (rstrip_zeros r)
  end.

(** The [k] decimals of [n / 10^k], without trailing zeros. *)
Definition decimals (k : Z) (n : Z) : string :=
  let d := str_int n in
  let padded := repeat_str (Z.to_nat k - String.length d) "0" ++ d in
  match rstrip_zeros padded with
  | "" => "0"
  | f => f
  end.

Definition repr_float (x : float) : string :=
  match Prim2SF x with
  | S754_zero s => if s then "-0.0" else "0.0"
  | S754_infinity s => if s then "-inf" else "inf"
  | S754_nan => "nan"
  | S754_finite s m e =>
      (if s then "-" else "")
      ++ (if (0 <=? e)%Z then str_int (Z.pos m * 2 ^ e) ++ ".0"
          else str_int (Z.pos m / 2 ^ (- e)) ++ "."
               ++ decimals (- e) ((Z.pos m mod 2 ^ (- e)) * 5 ^ (- e)))%Z
  end.

Fixpoint repr (v : pyval) : string :=
  match v with
  | PNone => "None"
  | PBool b => if b then "True" else "False"
  | PInt n => str_int n
  | PFloat x => repr_float x
  | PStr s => repr_str s
  | PList l => "[" ++ join ", " (map repr l) ++ "]"
  | PDict d =>
      "{" ++ join ", " (map (fun kv => match kv with
                                      | (k, x) => repr_str k ++ ": " ++ repr x
                                      end) d) ++ "}"
  end.

Definition type_name (t : pytype) : string :=
  match t with
  | NoneType => "NoneType"
  | TBool => "bool"
  | TInt => "int"
  | TFloat => "float"
  | TStr => "str"
  | TList => "list"
  | TDict => "dict"
  end.

Definition cpython : Runtime := {|
  py_repr := repr;
  not_subscriptable := fun t =>
    match t with
    | TStr => "string indices must be integers, not 'str'"
    | TList => "list indices must be integers or slices, not str"
    | _ => "'" ++ type_name t ++ "' object is not subscriptable"
    end;
  not_iterable := fun t => "'" ++ type_name t ++ "' object is not iterable";
  no_attribute := fun t name =>
    "'" ++ type_name t ++ "' object has no attribute '" ++ name ++ "'";
  status_error := fun r => "HTTP status " ++ str_int (status_code r)
|}.

(* ------------------------------------------------------------------ *)
(** ** The data model of the specification *)

(** "processingTimeSeconds: float >= 0" *)
Definition valid_processing_time (v : pyval) : bool :=
  match v with
  | PFloat x => PrimFloat.leb 0%float x
  | _ => false
  end.

(** "number: int >= 1" *)
Definition valid_number (v : pyval) : bool :=
  match v with
  | PInt n => (1 <=? n)%Z
  | _ => false
  end.

(** The [number], [title] and [url] of a source, when it has all three. *)
Definition source_fields (source : pyval) : option (pyval * pyval * pyval) :=
  match source with
  | PDict d =>
      match lookup "number" d, lookup "title" d, lookup "url" d with
      | Some number, Some title, Some url => Some (number, title, url)
      | _, _, _ => None
      end
  | _ => None
  end.

Definition well_formed_source (source : pyval) : bool :=
  match source_fields source with
  | Some _ => true
  | None => false
  end.

Definition valid_source (source : pyval) : bool :=
  match source_fields source with
  | Some (number, _, _) => valid_number number
  | None => false
  end.

(** An Answer that meets the constraints of the data model. *)
Definition valid_answer (a : APIAnswer) : bool :=
  valid_processing_time (processing_time a) && forallb valid_source (sources a).

(* ------------------------------------------------------------------ *)
(** ** Sample servers and sessions *)

Definition quoted (s : string) : string := char 34 ++ s ++ char 34.

(** The JSON text of a value whose strings need no escaping. *)
Fixpoint json_text (v : pyval) : string :=
  match v with
  | PNone => "null"
  | PBool b => if b then "true" else "false"
  | PInt n => str_int n
  | PFloat x => repr_float x
  | PStr s => quoted s
  | PList l => "[" ++ join ", " (map json_text l) ++ "]"
  | PDict d =>
      "{" ++ join ", " (map (fun kv => match kv with
                                      | (k, x) => quoted k ++ ": " ++ json_text x
                                      end) d) ++ "}"
  end.

Definition json_response (code : Z) (v : pyval) : Response :=
  {| status_code := code; text := json_text v; decoded := inl v |}.

Definition html_response (code : Z) (body : string) : Response :=
  {| status_code := code;
     text := body;
     decoded := inr "Expecting value: line 1 column 1 (char 0)" |}.

Definition world_of (srv : nat -> Request -> transport_result) : World :=
  {| server := srv; environ := fun _ => None; client_failure := None;
     trace := [] |}.

Definition local_client : RAGAPIClient :=
  {| base_url := "http://localhost:8000"; timeout := default_timeout |}.

Definition local_cli : RAGCLI := {| api_client := local_client |}.

Definition healthy : Response :=
  json_response 200 (PDict [("status", PStr "healthy");
                            ("ollama_accessible", PBool true)]).

(** Answers the health probe and every question as the end-to-end scenario
    of the specification does. *)
Definition paris_server (n : nat) (req : Request) : transport_result :=
  match method req with
  | GET => Responds healthy
  | POST =>
      Responds (json_response 200
        (PDict [("answer", PStr "Paris");
                ("sources", PList [PDict [("number", PInt 1);
                                          ("title", PStr "France");
                                          ("url", PStr "http://x")]]);
                ("processing_time", PFloat 0.5%float)]))
  end.

Definition france : string := "What is the capital of France?".

(** What [paris_server] sends for a question, as the client returns it. *)
Definition paris_answer : APIAnswer :=
  {| answer := PStr "Paris";
     sources := [PDict [("number", PInt 1);
                        ("title", PStr "France");
                        ("url", PStr "http://x")]];
     processing_time := PFloat 0.5%float |}.

(** No server listens. *)
Definition refusing_server (n : nat) (req : Request) : transport_result :=
  Fails (Exc ConnectError "[Errno 111] Connection refused").

(** The server accepts the connection and never answers. *)
Definition silent_server (n : nat) (req : Request) : transport_result :=
  Fails (Exc ReadTimeout "timed out").

(** A proxy in front of the server answers 200 with an HTML page. *)
Definition html_server (n : nat) (req : Request) : transport_result :=
  Responds (html_response 200 "<html>It works!</html>").

(** The server rejects every request with status 503 and a detail. *)
Definition overloaded_server (n : nat) (req : Request) : transport_result :=
  Responds (json_response 503 (PDict [("detail", PStr "Ollama is down")])).

(** The gateway in front of the server fails with a plain-text page. *)
Definition gateway_server (n : nat) (req : Request) : transport_result :=
  Responds (html_response 502 "Bad Gateway").

(** The server is healthy and answers with values outside the data model. *)
Definition sloppy_server (n : nat) (req : Request) : transport_result :=
  match method req with
  | GET => Responds healthy
  | POST =>
      Responds (json_response 200
        (PDict [("answer", PStr "Paris");
                ("sources", PList [PDict [("number", PInt 0);
                                          ("title", PStr "France");
                                          ("url", PStr "http://x")]]);
                ("processing_time", PFloat (-1.5)%float)]))
  end.

(** The world in which [main] has built its client. *)
Definition started (w : World) : World := record Acquire w.

(** The world in which [run] is about to call [check_health]. *)
Definition probing (w : World) : World :=
  snd ((print_banner ;; print "Checking server connection...") (started w)).

(** The health probe reports an error status; questions are answered. *)
Definition degraded_server (n : nat) (req : Request) : transport_result :=
  match method req with
  | GET => Responds (json_response 500 (PDict [("detail", PStr "boom")]))
  | POST => paris_server n req
  end.

(* ------------------------------------------------------------------ *)
(** ** api_models.py

    The models of the server.  The request model is what the server
    accepts: a predicate on the JSON body, the required field being there
    with the declared type and within the declared bound.  The response
    models are what the server holds and sends: records of the declared
    fields, the bounds of their [Field]s, and the JSON object an instance is
    sent as. *)

(** [QuestionRequest]: [question] is a str, [min_length=1]. *)
Definition QuestionRequest_conforms (v : pyval) : bool :=
  match v with
  | PDict d =>
      match lookup "question" d with
      | Some (PStr s) => negb (s =? "")
      | _ => false
      end
  | _ => false
  end.

Module api_models.

(** [class Source(BaseModel)] *)
Record Source : Type := {
  number : Z;
  title : string;
  url : string
}.

(** [class AnswerResponse(BaseModel)]: an instance built without [sources]
    holds the empty list ([default_factory=list]), and one built with an
    integer for [processing_time] holds the float of that value. *)
Record AnswerResponse : Type := {
  answer : string;
  sources : list Source;
  processing_time : float
}.

(** [number]: [ge=1] *)
Definition Source_conforms (s : Source) : bool := (1 <=? number s)%Z.

(** [processing_time]: [ge=0], and every source a conforming [Source]. *)
Definition AnswerResponse_conforms (a : AnswerResponse) : bool :=
  forallb Source_conforms (sources a)
  && PrimFloat.leb 0%float (processing_time a).

(** The JSON object an instance is sent as: every field under its name. *)
Definition Source_dump (s : Source) : pyval :=
  PDict [("number", PInt (number s));
         ("title", PStr (title s));
         ("url", PStr (url s))].

Definition AnswerResponse_dump (a : AnswerResponse) : pyval :=
  PDict [("answer", PStr (answer a));
         ("sources", PList (map Source_dump (sources a)));
         ("processing_time", PFloat (processing_time a))].

End api_models.

(* ------------------------------------------------------------------ *)
(** ** Notions the further properties are stated with *)

(** The address [RAGAPIClient.__init__] starts from: the argument, else the
    environment variable, else the default. *)
Definition resolve_url (url : option string) (w : World) : string :=
  match url with
  | Some u => u
  | None =>
      match environ w "AISHE_API_URL" with
      | Some u => u
      | None => "http://localhost:8000"
      end
  end.

(** The last character of [s] is in [p]. *)
Fixpoint ends_with (p : ascii -> bool) (s : string) : bool :=
  match s with
  | "" => false
  | String c "" => p c
  | String _ r => ends_with p r
  end.

(** An exception of a class without payload. *)
Definition plain (e : exception) : bool :=
  match e with
  | Exc _ _ => true
  | _ => false
  end.


(** A source as the comprehension of [ask_question] builds it. *)
Definition rebuilt (source : pyval) : Prop :=
  exists number title url,
    source = PDict [("number", number); ("title", title); ("url", url)].

(** [with manager as c: body c] for a client as the context manager: the
    body gets what [__enter__] returns, [__exit__] runs when the body
    returns or raises, and as it returns [None] an exception of the body is
    raised again after it. *)
Definition with_client {A : Type} (manager : RAGAPIClient)
  (body : RAGAPIClient -> M A) : M A :=
  c <- RAGAPIClient_enter manager ;;
  fun w =>
    match body c w with
    | (Return a, w') => (RAGAPIClient_exit manager ;; ret a) w'
    | (Raise e, w') => (RAGAPIClient_exit manager ;; raise e) w'
    end.




(** What one pass of the loop adds when the input is at its end. *)
Definition end_of_file_round : list event :=
  [Prompt question_prompt;
   Input EndOfFile;
   Print (nl ++ "Unexpected error: " ++ "EOF when reading a line");
   PrintExc (Exc EOFError "EOF when reading a line")].

Definition no_send (ev : event) : bool := negb (is_send ev).

(** Run in a world that satisfies [Inv], [m] raises only exceptions that
    satisfy [Q] and changes the world only by adding effects. *)
Definition guarded {A : Type} (Inv : World -> Prop) (Q : exception -> Prop)
  (m : M A) : Prop :=
  forall w, Inv w ->
    (forall e, fst (m w) = Raise e -> Q e)
    /\ exists t, snd (m w) = extend w t.

(** The exceptions a subscript raises. *)
Definition lookup_error (e : exception) : Prop :=
  exists m, e = Exc KeyError m \/ e = Exc TypeError m.

(** The world in which the loop calls the client for the question of
    [line]. *)
Definition asking (line : string) (w : World) : World :=
  extend w [Prompt question_prompt; Input (Line line);
            Print (nl ++ "Searching Wikipedia and generating answer...")].




(** The server answers 200 with a JSON object that lacks required keys. *)
Definition partial_server (n : nat) (req : Request) : transport_result :=
  match method req with
  | GET => Responds (json_response 200 (PDict [("status", PStr "healthy")]))
  | POST =>
      Responds (json_response 200
        (PDict [("answer", PStr "Paris");
                ("sources", PList [PDict [("number", PInt 1);
                                          ("url", PStr "http://x")]]);
                ("processing_time", PFloat 0.5%float)]))
  end.

(** The server is reachable and reports that its model is not. *)
Definition unhealthy_server (n : nat) (req : Request) : transport_result :=
  match method req with
  | GET =>
      Responds (json_response 200
        (PDict [("status", PStr "unhealthy");
                ("ollama_accessible", PBool false);
                ("message", PStr "Ollama is not accessible")]))
  | POST => paris_server n req
  end.

(** The user interrupts the process while a request is under way. *)
Definition interrupted_server (n : nat) (req : Request) : transport_result :=
  Fails (Exc KeyboardInterrupt "").

(** The server fails with a JSON object that has no [detail]. *)
Definition terse_server (n : nat) (req : Request) : transport_result :=
  Responds (json_response 500 (PDict [("error", PStr "boom")])).

(** The server answers 200 with an answer and nothing else. *)
Definition bare_server (n : nat) (req : Request) : transport_result :=
  Responds (json_response 200 (PDict [("answer", PStr "Paris")])).


(** The server sends [null] where the sources belong. *)
Definition null_sources_server (n : nat) (req : Request) : transport_result :=
  Responds (json_response 200
    (PDict [("answer", PStr "Paris");
            ("sources", PNone);
            ("processing_time", PFloat 0.5%float)])).

(** The environment names a proxy of a scheme httpx does not know, and httpx
    refuses to build a client. *)
Definition proxy_world (srv : nat -> Request -> transport_result) : World :=
  {| server := srv;
     environ := fun name =>
                  if name =? "HTTP_PROXY" then Some "foo://bar" else None;
     client_failure :=
       Some (Exc ValueError "Unknown scheme for proxy URL URL('foo://bar')");
     trace := [] |}.

(* ================================================================== *)
(** * Properties *)

(** ** Strings *)

Lemma prefix_app (s t : string) : prefix s (s ++ t) = true.
Proof.
  induction s as [|c s IH]; simpl.
  - destruct t; reflexivity.
  - destruct (ascii_dec c c) as [_|N]; [exact IH | now elim N].
Qed.

Lemma prefix_app_l (p s t : string) :
  prefix p s = true -> prefix p (s ++ t) = true.
Proof.
  revert s; induction p as [|c p IH]; intros s H.
  - destruct (s ++ t); reflexivity.
  - destruct s as [|d s]; simpl in *; [discriminate|].
    destruct (ascii_dec c d); [now apply IH | discriminate].
Qed.

Lemma contains_prefix (sub s : string) :
  prefix sub s = true -> contains sub s = true.
Proof. intros H; destruct s; cbn [contains]; rewrite H; reflexivity. Qed.

Lemma contains_app_r (sub s t : string) :
  contains sub t = true -> contains sub (s ++ t) = true.
Proof.
  intros H; induction s as [|c s IH]; [exact H|].
  change (String c s ++ t) with (String c (s ++ t)). cbn [contains].
  rewrite IH; apply orb_true_r.
Qed.

Lemma contains_app_l (sub s t : string) :
  contains sub s = true -> contains sub (s ++ t) = true.
Proof.
  induction s as [|c s IH]; cbn [contains]; intros H.
  - rewrite orb_false_r in H. apply contains_prefix.
    now apply (prefix_app_l sub "" t).
  - apply orb_true_iff in H as [H|H].
    + apply contains_prefix. now apply prefix_app_l.
    + change (String c s ++ t) with (String c (s ++ t)). cbn [contains].
      rewrite (IH H). apply orb_true_r.
Qed.

Lemma contains_here (sub t : string) : contains sub (sub ++ t) = true.
Proof. apply contains_prefix, prefix_app. Qed.

Lemma contains_refl (s : string) : contains s s = true.
Proof.
  apply contains_prefix. induction s as [|c s IH]; simpl; [reflexivity|].
  destruct (ascii_dec c c) as [_|N]; [exact IH | now elim N].
Qed.

Create HintDb contains.

#[local] Hint Resolve contains_here contains_refl contains_app_r contains_app_l
  : contains.

Ltac found := auto 8 with contains.

Lemma length_append (s t : string) :
  String.length (s ++ t) = String.length s + String.length t.
Proof. induction s as [|c s IH]; cbn; [reflexivity | now rewrite IH]. Qed.

Lemma append_assoc (s t u : string) : (s ++ t) ++ u = s ++ (t ++ u).
Proof. induction s as [|c s IH]; cbn; [reflexivity | now rewrite IH]. Qed.

Lemma append_empty_r (s : string) : s ++ "" = s.
Proof. induction s as [|c s IH]; cbn; [reflexivity | now rewrite IH]. Qed.

(** *** Trimming *)

Lemma whitespace2_first (c1 c2 : ascii) :
  whitespace2 c1 c2 = true -> whitespace1 c1 = false.
Proof.
  destruct c1 as [[] [] [] [] [] [] [] []];
    try (intros _; reflexivity); cbn; intros H; discriminate H.
Qed.

Lemma whitespace3_first (c1 c2 c3 : ascii) :
  whitespace3 c1 c2 c3 = true ->
  whitespace1 c1 = false /\ whitespace2 c1 c2 = false.
Proof.
  destruct c1 as [[] [] [] [] [] [] [] []];
    try (intros _; split; reflexivity); cbn; intros H; discriminate H.
Qed.

Lemma space_char_length (p : string) :
  space_char p = true -> 1 <= String.length p.
Proof. destruct p; cbn; [discriminate | lia]. Qed.

(** [lstrip] removes a leading whitespace character and goes on. *)
Lemma lstrip_space (p r : string) :
  space_char p = true -> lstrip (p ++ r) = lstrip r.
Proof.
  destruct p as [|c1 [|c2 [|c3 [|c4 p]]]]; cbn [space_char]; try discriminate;
    intros H; cbn [append lstrip].
  - now rewrite H.
  - now rewrite (whitespace2_first c1 c2 H), H.
  - destruct (whitespace3_first c1 c2 c3 H) as [-> ->]. now rewrite H.
Qed.

Lemma space_char_starts (p r : string) :
  space_char p = true -> starts_with_space (p ++ r) = true.
Proof.
  destruct p as [|c1 [|c2 [|c3 [|c4 p]]]]; cbn [space_char]; try discriminate;
    intros H; cbn [append starts_with_space]; rewrite H;
    repeat (rewrite ?orb_true_r, ?orb_true_l); reflexivity.
Qed.

(** Either [s] starts with no whitespace and [lstrip] leaves it alone, or it
    starts with a whitespace character [p], which [lstrip] removes. *)
Lemma lstrip_unfold (s : string) :
  (starts_with_space s = false /\ lstrip s = s)
  \/ (exists p r, space_char p = true /\ s = p ++ r /\ lstrip s = lstrip r).
Proof.
  destruct s as [|c1 r1]; [left; split; reflexivity|].
  destruct (whitespace1 c1) eqn:W1.
  { right. exists (String c1 ""), r1. cbn. rewrite W1. auto. }
  destruct r1 as [|c2 r2].
  { left. cbn. rewrite W1. auto. }
  destruct (whitespace2 c1 c2) eqn:W2.
  { right. exists (String c1 (String c2 "")), r2. cbn. rewrite W1, W2. auto. }
  destruct r2 as [|c3 r3].
  { left. cbn. rewrite W1, W2. auto. }
  destruct (whitespace3 c1 c2 c3) eqn:W3.
  { right. exists (String c1 (String c2 (String c3 ""))), r3. cbn.
    rewrite W1, W2, W3. auto. }
  left. cbn. rewrite W1, W2, W3. auto.
Qed.

Lemma lstrip_fixed (s : string) : starts_with_space s = false -> lstrip s = s.
Proof.
  intros H. destruct (lstrip_unfold s) as [[_ E]|(p & r & P & -> & _)];
    [exact E|].
  now rewrite (space_char_starts p r P) in H.
Qed.

Lemma lstrip_result (s : string) : starts_with_space (lstrip s) = false.
Proof.
  remember (String.length s) as n eqn:L.
  revert s L. induction n as [n IH] using lt_wf_ind. intros s L.
  destruct (lstrip_unfold s) as [[H E]|(p & r & P & -> & E)].
  - now rewrite E.
  - rewrite E. apply (IH (String.length r)); [|reflexivity].
    rewrite L, length_append. pose proof (space_char_length p P). lia.
Qed.

(** A blank prefix disappears under [lstrip]. *)
Lemma lstrip_blank_prefix (a b : string) :
  lstrip a = "" -> lstrip (a ++ b) = lstrip b.
Proof.
  remember (String.length a) as n eqn:L.
  revert a L. induction n as [n IH] using lt_wf_ind. intros a L H.
  destruct (lstrip_unfold a) as [[_ E]|(p & r & P & -> & E)].
  - rewrite E in H. now subst a.
  - rewrite append_assoc, (lstrip_space p (r ++ b) P).
    apply (IH (String.length r)); [|reflexivity|now rewrite <- E].
    rewrite L, length_append. pose proof (space_char_length p P). lia.
Qed.

Lemma blank_append (a b : string) :
  blank a = true -> blank b = true -> blank (a ++ b) = true.
Proof.
  unfold blank. intros A B. apply String.eqb_eq in A.
  now rewrite (lstrip_blank_prefix a b A).
Qed.

Lemma starts_with_space_prefix (p t : string) :
  starts_with_space p = true -> starts_with_space (p ++ t) = true.
Proof.
  destruct p as [|c1 [|c2 [|c3 p]]]; cbn [starts_with_space append];
    try discriminate.
  - rewrite orb_false_r. now intros ->.
  - rewrite orb_false_r. intros H. apply orb_true_iff in H as [->| ->];
      repeat (rewrite ?orb_true_r, ?orb_true_l); reflexivity.
  - trivial.
Qed.

(** [rstrip] cuts a blank tail off. *)
Lemma rstrip_tail (s : string) :
  exists t, s = rstrip s ++ t /\ blank t = true.
Proof.
  induction s as [|c s (t & E & B)].
  - exists "". split; reflexivity.
  - cbn [rstrip]. destruct (blank (String c s)) eqn:X.
    + exists (String c s). split; [reflexivity | exact X].
    + exists t. split; [cbn; now rewrite <- E | exact B].
Qed.

Lemma rstrip_idempotent (s : string) : rstrip (rstrip s) = rstrip s.
Proof.
  induction s as [|c s IH]; [reflexivity|].
  cbn [rstrip]. destruct (blank (String c s)) eqn:X; [reflexivity|].
  cbn [rstrip]. rewrite IH.
  destruct (blank (String c (rstrip s))) eqn:Y; [|reflexivity].
  destruct (rstrip_tail s) as (t & E & B).
  pose proof (blank_append _ _ Y B) as Z. cbn [append] in Z.
  rewrite <- E in Z. congruence.
Qed.

(** Trimming twice is trimming once. *)
Lemma strip_idempotent (s : string) : strip (strip s) = strip s.
Proof.
  unfold strip. rewrite (lstrip_fixed (rstrip (lstrip s))).
  - apply rstrip_idempotent.
  - destruct (rstrip_tail (lstrip s)) as (t & E & _).
    destruct (starts_with_space (rstrip (lstrip s))) eqn:X; [|reflexivity].
    apply (starts_with_space_prefix _ t) in X. rewrite <- E in X.
    now rewrite lstrip_result in X.
Qed.

Lemma strip_empty : strip "" = "".
Proof. reflexivity. Qed.

Lemma nonblank_passes (q : string) :
  strip q <> "" -> (q =? "") || (strip q =? "") = false.
Proof.
  intros H. apply orb_false_iff; split; apply String.eqb_neq; [|exact H].
  intros ->. now apply H.
Qed.

(** ** Exception classes *)

Lemma timeout_is_no_connect_error (e : exception) :
  isinstance e TimeoutException = true -> isinstance e ConnectError = false.
Proof.
  destruct e as [c m|m r|n]; [destruct c|..]; vm_compute; congruence.
Qed.

Lemma connect_error_is_exception (e : exception) :
  isinstance e ConnectError = true -> isinstance e Exception = true.
Proof.
  destruct e as [c m|m r|n]; [destruct c|..]; vm_compute; congruence.
Qed.

(** ** The client *)

Section ClientProperties.

Variable rt : Runtime.

(** A request that fails in the transport hands the exception to the
    [except] clauses, with the request on the trace. *)
Lemma check_health_transport_failure (self : RAGAPIClient) (w : World)
  (e : exception) :
  next_reply w (health_request self) = Fails e ->
  check_health rt self w
  = check_health_except self e (record (Send (health_request self)) w).
Proof.
  intros H. unfold check_health, try_except, bind, send. rewrite H. reflexivity.
Qed.

Lemma ask_request_transport_failure (self : RAGAPIClient) (q : string)
  (w : World) (e : exception) :
  next_reply w (question_request self q) = Fails e ->
  ask_request rt self q w
  = ask_question_except rt self e (record (Send (question_request self q)) w).
Proof.
  intros H. unfold ask_request, try_except, bind, send. rewrite H. reflexivity.
Qed.

(** A response with a failure status hands an [HTTPStatusError] carrying it
    to the [except] clauses. *)
Lemma check_health_failure_status (self : RAGAPIClient) (w : World)
  (r : Response) :
  next_reply w (health_request self) = Responds r ->
  is_success r = false ->
  check_health rt self w
  = check_health_except self (HTTPStatusError (status_error rt r) r)
      (record (Send (health_request self)) w).
Proof.
  intros H S. unfold check_health, try_except, bind, send, raise_for_status.
  rewrite H, S. reflexivity.
Qed.

Lemma ask_request_failure_status (self : RAGAPIClient) (q : string)
  (w : World) (r : Response) :
  next_reply w (question_request self q) = Responds r ->
  is_success r = false ->
  ask_request rt self q w
  = ask_question_except rt self (HTTPStatusError (status_error rt r) r)
      (record (Send (question_request self q)) w).
Proof.
  intros H S. unfold ask_request, try_except, bind, send, raise_for_status.
  rewrite H, S. reflexivity.
Qed.

Lemma ask_question_nonblank (self : RAGAPIClient) (q : string) :
  strip q <> "" -> ask_question rt self q = ask_request rt self q.
Proof. intros H. unfold ask_question. now rewrite nonblank_passes. Qed.

(** C1. A question that is empty once trimmed makes [ask_question] raise
    the [ValueError] of its first statement: the world is left as it was, so
    no request went out, and the exception is the one raised there, which is
    no [APIClientError] (neither of the server kinds, nor the generic one). *)
Theorem C1_blank_question_fails_locally (self : RAGAPIClient)
  (question : string) (w : World) :
  strip question = "" ->
  ask_question rt self question w
  = (Raise (Exc ValueError "Question cannot be empty"), w)
  /\ isinstance (Exc ValueError "Question cannot be empty") APIClientError
     = false.
Proof.
  intros H. split; [|reflexivity].
  unfold ask_question. rewrite H, orb_true_r. reflexivity.
Qed.

(** C8. When the connection cannot be established (httpx raises a
    [ConnectError]), [check_health] and [ask_question] both raise
    [ServerNotReachableError], with a message that names the client's base
    address and says to make sure the server is running. *)
Theorem C8_connection_failure_is_not_reachable (self : RAGAPIClient)
  (question : string) (w : World) (e : exception) :
  next_reply w (health_request self) = Fails e ->
  next_reply w (question_request self question) = Fails e ->
  isinstance e ConnectError = true ->
  strip question <> "" ->
  exists mh mq,
    fst (check_health rt self w) = Raise (Exc ServerNotReachableError mh)
    /\ fst (ask_question rt self question w)
       = Raise (Exc ServerNotReachableError mq)
    /\ contains (base_url self) mh = true
    /\ contains "Make sure the server is running" mh = true
    /\ contains (base_url self) mq = true
    /\ contains "Make sure the server is running" mq = true.
Proof.
  intros Hh Hq C Q.
  rewrite (check_health_transport_failure self w e Hh).
  rewrite (ask_question_nonblank self question Q).
  rewrite (ask_request_transport_failure self question w e Hq).
  unfold check_health_except, ask_question_except. rewrite C.
  do 2 eexists. repeat split; found.
Qed.

(** C3, as the code has it.  When the request times out (httpx raises a
    [TimeoutException]), [check_health] and [ask_question] both raise
    [ServerNotReachableError]; the message of [check_health] names the base
    address, the message of [ask_question] states the timeout and says the
    question might be too complex, and the two messages differ. *)
Theorem C3_timeout_is_not_reachable (self : RAGAPIClient)
  (question : string) (w : World) (e : exception) :
  next_reply w (health_request self) = Fails e ->
  next_reply w (question_request self question) = Fails e ->
  isinstance e TimeoutException = true ->
  strip question <> "" ->
  exists mh mq,
    fst (check_health rt self w) = Raise (Exc ServerNotReachableError mh)
    /\ fst (ask_question rt self question w)
       = Raise (Exc ServerNotReachableError mq)
    /\ contains (base_url self) mh = true
    /\ contains (py_str rt (PFloat (timeout self))) mq = true
    /\ contains "The question might be too complex" mq = true
    /\ mh <> mq.
Proof.
  intros Hh Hq T Q.
  rewrite (check_health_transport_failure self w e Hh).
  rewrite (ask_question_nonblank self question Q).
  rewrite (ask_request_transport_failure self question w e Hq).
  unfold check_health_except, ask_question_except.
  rewrite (timeout_is_no_connect_error _ T), T.
  do 2 eexists. repeat split; try solve [found]. discriminate.
Qed.

(** The [except] clauses of both operations only raise: they leave the world
    as it is and never produce a result. *)
Lemma check_health_except_raises (self : RAGAPIClient) (e : exception)
  (w : World) :
  exists e', check_health_except self e w = (Raise e', w).
Proof.
  unfold check_health_except, raise.
  destruct (isinstance e ConnectError); [eauto|].
  destruct (isinstance e TimeoutException); [eauto|].
  destruct e; [destruct (isinstance _ Exception)| |destruct (isinstance _ Exception)];
    eauto.
Qed.

Lemma ask_question_except_raises (self : RAGAPIClient) (e : exception)
  (w : World) :
  exists e', ask_question_except rt self e w = (Raise e', w).
Proof.
  unfold ask_question_except, raise.
  destruct (isinstance e ConnectError); [eauto|].
  destruct (isinstance e TimeoutException); [eauto|].
  destruct e; eauto;
    destruct (isinstance _ ValueError); eauto;
    destruct (isinstance _ Exception); eauto.
Qed.

Ltac handled :=
  cbv beta iota;
  match goal with
  | |- context [ask_question_except _ ?self ?e ?w] =>
      let e' := fresh "e" in
      let E := fresh "E" in
      destruct (ask_question_except_raises self e w) as [e' E];
      rewrite E
  | |- context [check_health_except ?self ?e ?w] =>
      let e' := fresh "e" in
      let E := fresh "E" in
      destruct (check_health_except_raises self e w) as [e' E];
      rewrite E
  end.

Lemma requests_snoc (t : list event) (ev : event) :
  requests (t ++ [ev])
  = (requests t ++ (if is_send ev then requests [ev] else []))%list.
Proof.
  induction t as [|x t IH]; simpl.
  - destruct ev; reflexivity.
  - destruct x; simpl; rewrite IH; reflexivity.
Qed.

(** What [ask_request] does: one request goes out; a result comes back
    exactly when the response has a success status, its body decodes, and the
    three subscripts of [data] and the comprehension all succeed. *)
Lemma ask_request_sends (self : RAGAPIClient) (q : string) (w : World) :
  snd (ask_request rt self q w) = record (Send (question_request self q)) w.
Proof.
  unfold ask_request, try_except, bind, send, raise_for_status, lift, ret, raise,
    response_json.
  destruct (next_reply w (question_request self q)) as [r|e];
    [|handled; reflexivity].
  destruct (is_success r); [|handled; reflexivity].
  destruct (decoded r) as [data|description]; [|handled; reflexivity].
  destruct (convert_sources rt data); [|handled; reflexivity].
  destruct (getitem rt data "answer"); [|handled; reflexivity].
  destruct (getitem rt data "processing_time"); [|handled; reflexivity].
  reflexivity.
Qed.

Lemma check_health_sends (self : RAGAPIClient) (w : World) :
  snd (check_health rt self w) = record (Send (health_request self)) w.
Proof.
  unfold check_health, try_except, bind, send, raise_for_status, lift, ret, raise,
    response_json.
  destruct (next_reply w (health_request self)) as [r|e];
    [|handled; reflexivity].
  destruct (is_success r); [|handled; reflexivity].
  destruct (decoded r) as [data|description]; [|handled; reflexivity].
  destruct (getitem rt data "status"); [|handled; reflexivity].
  destruct (getitem rt data "ollama_accessible"); [|handled; reflexivity].
  destruct (dict_get rt data "message" PNone); [|handled]; reflexivity.
Qed.

Lemma ask_request_returns (self : RAGAPIClient) (q : string) (w : World)
  (a : APIAnswer) :
  fst (ask_request rt self q w) = Return a ->
  exists r data,
    next_reply w (question_request self q) = Responds r
    /\ is_success r = true
    /\ decoded r = inl data
    /\ convert_sources rt data = Return (sources a)
    /\ getitem rt data "answer" = Return (answer a)
    /\ getitem rt data "processing_time" = Return (processing_time a).
Proof.
  unfold ask_request, try_except, bind, send, raise_for_status, lift, ret, raise,
    response_json.
  destruct (next_reply w (question_request self q)) as [r|e] eqn:N;
    [|handled; discriminate].
  destruct (is_success r) eqn:S; [|handled; discriminate].
  destruct (decoded r) as [data|description] eqn:D; [|handled; discriminate].
  destruct (convert_sources rt data) as [srcs|e1] eqn:C;
    [|handled; discriminate].
  destruct (getitem rt data "answer") as [ans|e2] eqn:A;
    [|handled; discriminate].
  destruct (getitem rt data "processing_time") as [pt|e3] eqn:P;
    [|handled; discriminate].
  cbn [fst]. intros [= <-]. exists r, data. cbn. auto 10.
Qed.

Lemma ask_request_accepts (self : RAGAPIClient) (q : string) (w : World)
  (r : Response) (data a p : pyval) (srcs : list pyval) :
  next_reply w (question_request self q) = Responds r ->
  is_success r = true ->
  decoded r = inl data ->
  convert_sources rt data = Return srcs ->
  getitem rt data "answer" = Return a ->
  getitem rt data "processing_time" = Return p ->
  fst (ask_request rt self q w)
  = Return {| answer := a; sources := srcs; processing_time := p |}.
Proof.
  intros N S D C A P.
  unfold ask_request, try_except, bind, send, raise_for_status, lift, ret,
    response_json.
  rewrite N, S, D, C, A, P. reflexivity.
Qed.

(** Every exception [check_health] raises comes out of its [except]
    clauses. *)
Lemma check_health_raises_from_except (self : RAGAPIClient) (w : World)
  (e : exception) :
  fst (check_health rt self w) = Raise e ->
  exists e0 w', check_health_except self e0 w' = (Raise e, w').
Proof.
  unfold check_health, try_except, bind, send, raise_for_status, lift, ret, raise,
    response_json.
  destruct (next_reply w (health_request self)) as [r|e0];
    [|handled; intros [= <-]; eauto].
  destruct (is_success r); [|handled; intros [= <-]; eauto].
  destruct (decoded r) as [data|description]; [|handled; intros [= <-]; eauto].
  destruct (getitem rt data "status"); [|handled; intros [= <-]; eauto].
  destruct (getitem rt data "ollama_accessible");
    [|handled; intros [= <-]; eauto].
  destruct (dict_get rt data "message" PNone);
    [discriminate|handled; intros [= <-]; eauto].
Qed.

(** The kinds [check_health] raises: an [APIClientError] (the generic kind
    or one of its two subclasses), or an exception that is no [Exception]
    (an interrupt), which passes through. *)
Lemma check_health_raises (self : RAGAPIClient) (w : World) (e : exception) :
  fst (check_health rt self w) = Raise e ->
  isinstance e APIClientError = true \/ isinstance e Exception = false.
Proof.
  intros H. apply check_health_raises_from_except in H as (e0 & w' & H).
  revert H. unfold check_health_except, raise.
  destruct (isinstance e0 ConnectError); [intros [= <-]; now left|].
  destruct (isinstance e0 TimeoutException); [intros [= <-]; now left|].
  destruct e0 as [c m|m r|n].
  - destruct (isinstance (Exc c m) Exception) eqn:X; intros [= <-]; auto.
  - intros [= <-]; now left.
  - cbn. intros [= <-]; now right.
Qed.

Lemma ask_request_raises_from_except (self : RAGAPIClient) (q : string)
  (w : World) (e : exception) :
  fst (ask_request rt self q w) = Raise e ->
  exists e0 w', ask_question_except rt self e0 w' = (Raise e, w').
Proof.
  unfold ask_request, try_except, bind, send, raise_for_status, lift, ret, raise,
    response_json.
  destruct (next_reply w (question_request self q)) as [r|e0];
    [|handled; intros [= <-]; eauto].
  destruct (is_success r); [|handled; intros [= <-]; eauto].
  destruct (decoded r) as [data|description]; [|handled; intros [= <-]; eauto].
  destruct (convert_sources rt data); [|handled; intros [= <-]; eauto].
  destruct (getitem rt data "answer"); [|handled; intros [= <-]; eauto].
  destruct (getitem rt data "processing_time");
    [discriminate|handled; intros [= <-]; eauto].
Qed.

(** The kinds [ask_question] raises: besides those of [check_health], a
    [ValueError], which its [except ValueError] clause lets through. *)
Lemma ask_question_raises (self : RAGAPIClient) (q : string) (w : World)
  (e : exception) :
  fst (ask_question rt self q w) = Raise e ->
  isinstance e APIClientError = true
  \/ isinstance e ValueError = true
  \/ isinstance e Exception = false.
Proof.
  unfold ask_question.
  destruct ((q =? "") || (strip q =? "")).
  { intros [= <-]. right; now left. }
  intros H. apply ask_request_raises_from_except in H as (e0 & w' & H).
  revert H. unfold ask_question_except, raise.
  destruct (isinstance e0 ConnectError); [intros [= <-]; now left|].
  destruct (isinstance e0 TimeoutException); [intros [= <-]; now left|].
  destruct e0 as [c m|m r|n].
  - destruct (isinstance (Exc c m) ValueError) eqn:V; [intros [= <-]; auto|].
    destruct (isinstance (Exc c m) Exception) eqn:X; intros [= <-]; auto.
  - intros [= <-]; now left.
  - cbn. intros [= <-]; auto.
Qed.

(** A success response whose body is no JSON: [check_health] wraps the
    decoding error into the generic [APIClientError]; [ask_question] lets it
    through as the [ValueError] it is. *)
Lemma check_health_malformed_json (self : RAGAPIClient) (w : World)
  (r : Response) (description : string) :
  next_reply w (health_request self) = Responds r ->
  is_success r = true ->
  decoded r = inr description ->
  fst (check_health rt self w)
  = Raise (Exc APIClientError ("Unexpected error: " ++ description)).
Proof.
  intros N S D.
  unfold check_health, try_except, bind, send, raise_for_status, lift, ret,
    response_json.
  rewrite N, S, D. reflexivity.
Qed.

Lemma ask_question_malformed_json (self : RAGAPIClient) (q : string)
  (w : World) (r : Response) (description : string) :
  strip q <> "" ->
  next_reply w (question_request self q) = Responds r ->
  is_success r = true ->
  decoded r = inr description ->
  fst (ask_question rt self q w) = Raise (Exc JSONDecodeError description).
Proof.
  intros Q N S D. rewrite (ask_question_nonblank self q Q).
  unfold ask_request, try_except, bind, send, raise_for_status, lift, ret,
    response_json.
  rewrite N, S, D. reflexivity.
Qed.

(** The comprehension over the sources keeps their order and the three
    fields of each. *)
Lemma convert_source_fields (source converted : pyval) :
  convert_source rt source = Return converted ->
  source_fields converted = source_fields source
  /\ well_formed_source source = true.
Proof.
  unfold convert_source, well_formed_source, source_fields, getitem, obind.
  destruct source; try discriminate.
  destruct (lookup "number" entries); [|discriminate].
  destruct (lookup "title" entries); [|discriminate].
  destruct (lookup "url" entries); [|discriminate].
  intros [= <-]. split; reflexivity.
Qed.

Lemma convert_all_fields (items converted : list pyval) :
  omap (convert_source rt) items = Return converted ->
  map source_fields converted = map source_fields items.
Proof.
  revert converted; induction items as [|x items IH]; intros converted; cbn.
  - intros [= <-]. reflexivity.
  - destruct (convert_source rt x) as [y|] eqn:X; cbn; [|discriminate].
    destruct (omap (convert_source rt) items) as [ys|]; cbn; [|discriminate].
    intros [= <-]. cbn. f_equal; [|now apply IH].
    now apply convert_source_fields.
Qed.

Lemma convert_well_formed (items : list pyval) :
  forallb well_formed_source items = true ->
  exists converted, omap (convert_source rt) items = Return converted.
Proof.
  induction items as [|x items IH]; cbn; [eauto|].
  intros H. apply andb_true_iff in H as [X H].
  destruct (IH H) as [ys ->].
  unfold well_formed_source, source_fields in X.
  unfold convert_source, getitem.
  destruct x; try discriminate.
  destruct (lookup "number" entries); [|discriminate].
  destruct (lookup "title" entries); [|discriminate].
  destruct (lookup "url" entries); [|discriminate].
  cbn. eauto.
Qed.

Lemma valid_source_fields (a b : list pyval) :
  map source_fields a = map source_fields b ->
  forallb valid_source a = forallb valid_source b.
Proof.
  revert b; induction a as [|x a IH]; intros [|y b]; cbn; try discriminate.
  - reflexivity.
  - intros [= X H]. unfold valid_source at 1 3. rewrite X, (IH b H). reflexivity.
Qed.

(** C6. For a response with a failure status, [ask_question] raises
    [ServerError] with a message that contains the status code; it contains
    the [detail] entry when the body is a JSON object that has one, and the
    raw text of the body when the body is no JSON. *)
Theorem C6_failure_status_is_server_error (self : RAGAPIClient)
  (question : string) (w : World) (r : Response) :
  next_reply w (question_request self question) = Responds r ->
  is_success r = false ->
  strip question <> "" ->
  exists m,
    fst (ask_question rt self question w) = Raise (Exc ServerError m)
    /\ contains (str_int (status_code r)) m = true
    /\ (forall d detail,
          decoded r = inl (PDict d) ->
          lookup "detail" d = Some detail ->
          contains (py_str rt detail) m = true)
    /\ (forall description,
          decoded r = inr description -> contains (text r) m = true).
Proof.
  intros N S Q.
  rewrite (ask_question_nonblank self question Q).
  rewrite (ask_request_failure_status self question w r N S).
  unfold ask_question_except. cbn [isinstance]. cbn [fst raise].
  change (issubclass HTTPError ConnectError) with false.
  change (issubclass HTTPError TimeoutException) with false.
  cbv beta iota. eexists. split; [reflexivity|]. split; [found|]. split.
  - intros d detail D L. unfold error_detail, response_json, dict_get, obind.
    rewrite D, L. found.
  - intros description D. unfold error_detail, response_json, obind.
    rewrite D. cbn [py_str]. found.
Qed.

(** C7. For a question that is not empty once trimmed, [ask_question] issues
    one request, whose JSON body is the trimmed question under [question];
    and for a success response with [answer], [processing_time] and a list of
    sources that each have [number], [title] and [url], it returns an answer
    whose sources have the fields of the received ones, in their order. *)
Theorem C7_trimmed_question_and_sources_in_order (self : RAGAPIClient)
  (question : string) (w : World) :
  strip question <> "" ->
  requests (trace (snd (ask_question rt self question w)))
  = (requests (trace w) ++ [question_request self question])%list
  /\ json (question_request self question)
     = Some (PDict [("question", PStr (strip question))])
  /\ forall r d a listed p,
       next_reply w (question_request self question) = Responds r ->
       is_success r = true ->
       decoded r = inl (PDict d) ->
       lookup "answer" d = Some a ->
       lookup "sources" d = Some (PList listed) ->
       lookup "processing_time" d = Some p ->
       forallb well_formed_source listed = true ->
       exists result,
         fst (ask_question rt self question w) = Return result
         /\ answer result = a
         /\ processing_time result = p
         /\ map source_fields (sources result) = map source_fields listed.
Proof.
  intros Q. rewrite (ask_question_nonblank self question Q).
  split; [|split; [reflexivity|]].
  - rewrite ask_request_sends. cbn [record trace]. now rewrite requests_snoc.
  - intros r d a listed p N S D A L P W.
    destruct (convert_well_formed listed W) as [converted C].
    exists {| answer := a; sources := converted; processing_time := p |}.
    split; [|repeat split; now apply convert_all_fields].
    apply (ask_request_accepts self question w r (PDict d)); auto.
    + unfold convert_sources, getitem, obind. rewrite L. exact C.
    + unfold getitem. now rewrite A.
    + unfold getitem. now rewrite P.
Qed.

(** C9, as the code has it.  The answer [ask_question] returns carries the
    [processing_time] of the response and the fields of its sources as they
    were received; the client checks none of them, so the answer meets the
    constraints of the data model exactly when the received values do. *)
Theorem C9_answer_carries_received_values (self : RAGAPIClient)
  (question : string) (w : World) (result : APIAnswer) :
  fst (ask_question rt self question w) = Return result ->
  exists r d listed items,
    next_reply w (question_request self question) = Responds r
    /\ decoded r = inl (PDict d)
    /\ lookup "processing_time" d = Some (processing_time result)
    /\ lookup "sources" d = Some listed
    /\ iterate rt listed = Return items
    /\ map source_fields (sources result) = map source_fields items
    /\ valid_answer result
       = valid_processing_time (processing_time result)
         && forallb valid_source items.
Proof.
  unfold ask_question.
  destruct ((question =? "") || (strip question =? "")); [discriminate|].
  intros H. apply ask_request_returns in H as (r & data & N & S & D & C & A & P).
  unfold convert_sources, getitem, obind in C.
  destruct data; try discriminate.
  destruct (lookup "sources" entries) as [listed|] eqn:L; [|discriminate].
  destruct (iterate rt listed) as [items|] eqn:I; [|discriminate].
  unfold getitem in P.
  destruct (lookup "processing_time" entries) as [p|] eqn:LP; [|discriminate].
  injection P as P.
  exists r, entries, listed, items.
  pose proof (convert_all_fields items (sources result) C) as F.
  repeat split; auto.
  - now rewrite <- P.
  - unfold valid_answer. now rewrite (valid_source_fields _ _ F).
Qed.

End ClientProperties.

(** ** Effects *)

Lemma extend_nil (w : World) : extend w [] = w.
Proof. destruct w; unfold extend; cbn. now rewrite app_nil_r. Qed.

Lemma extend_extend (w : World) (t u : list event) :
  extend (extend w t) u = extend w (t ++ u).
Proof. unfold extend; cbn. now rewrite app_assoc. Qed.

Lemma record_extend (ev : event) (w : World) : record ev w = extend w [ev].
Proof. reflexivity. Qed.

Section Adds.

Variable P : event -> bool.

Lemma adds_ret {A : Type} (a : A) : adds_only P (ret a).
Proof. intros w. exists []. now rewrite extend_nil. Qed.

Lemma adds_raise {A : Type} (e : exception) : adds_only P (@raise A e).
Proof. intros w. exists []. now rewrite extend_nil. Qed.

Lemma adds_lift {A : Type} (o : outcome A) : adds_only P (lift o).
Proof. intros w. exists []. now rewrite extend_nil. Qed.

Lemma adds_emit (ev : event) : P ev = true -> adds_only P (emit ev).
Proof. intros H w. exists [ev]. cbn. now rewrite H. Qed.

Lemma adds_send (req : Request) : P (Send req) = true -> adds_only P (send req).
Proof.
  intros H w. exists [Send req]. unfold send.
  destruct (next_reply w req); cbn; now rewrite H.
Qed.

Lemma adds_bind {A B : Type} (m : M A) (k : A -> M B) :
  adds_only P m -> (forall a, adds_only P (k a)) -> adds_only P (bind m k).
Proof.
  intros Hm Hk w. unfold bind. destruct (Hm w) as (t & E & F).
  destruct (m w) as [[a|e] w']; cbn in E; subst w'.
  - destruct (Hk a (extend w t)) as (u & E' & F'). exists (t ++ u)%list.
    rewrite E', extend_extend, forallb_app, F, F'. auto.
  - exists t. auto.
Qed.

Lemma adds_try_except {A : Type} (m : M A) (h : exception -> M A) :
  adds_only P m -> (forall e, adds_only P (h e)) -> adds_only P (try_except m h).
Proof.
  intros Hm Hh w. unfold try_except. destruct (Hm w) as (t & E & F).
  destruct (m w) as [[a|e] w']; cbn in E; subst w'.
  - exists t. auto.
  - destruct (Hh e (extend w t)) as (u & E' & F'). exists (t ++ u)%list.
    rewrite E', extend_extend, forallb_app, F, F'. auto.
Qed.

End Adds.

(** Walks a computation built from the monad's operations. *)
Ltac adds_with leaf :=
  repeat first
    [ leaf
    | apply adds_ret
    | apply adds_raise
    | apply adds_lift
    | apply adds_emit; reflexivity
    | apply adds_send; reflexivity
    | apply adds_bind; [|intros ?]
    | apply adds_try_except; [|intros ?]
    | match goal with
      | |- adds_only _ (if ?b then _ else _) => destruct b
      | |- adds_only _ (match ?x with _ => _ end) => destruct x
      end
    | assumption ].

Ltac adds := adds_with fail.

Lemma filter_extend (f : event -> bool) (l t : list event) :
  forallb (fun ev => negb (f ev)) t = true ->
  filter f (l ++ t) = filter f l.
Proof.
  intros H. rewrite filter_app.
  replace (filter f t) with (@nil event); [apply app_nil_r|].
  induction t as [|x t IH]; [reflexivity|]. cbn in *.
  apply andb_true_iff in H as [X H].
  destruct (f x); [discriminate | auto].
Qed.

Lemma releases_extend (w : World) (t : list event) :
  forallb no_release t = true ->
  releases (trace (extend w t)) = releases (trace w).
Proof.
  intros H. unfold releases, extend; cbn [trace].
  now rewrite (filter_extend is_release).
Qed.

(** ** The constructors *)

Lemma RAGAPIClient_init_runs (url : option string) (t : float) (w : World) :
  RAGAPIClient_init url t w
  = match client_failure w with
    | Some e => (Raise e, w)
    | None =>
        (Return {| base_url := rstrip_chars slash (resolve_url url w);
                   timeout := t |},
         record Acquire w)
    end.
Proof.
  unfold RAGAPIClient_init, new_client, bind, ret, resolve_url.
  now destruct (client_failure w).
Qed.

Lemma RAGCLI_init_runs (api_url : option string) (w : World) :
  RAGCLI_init api_url w
  = match client_failure w with
    | Some e => (Raise e, w)
    | None =>
        (Return {| api_client :=
                     {| base_url := rstrip_chars slash (resolve_url api_url w);
                        timeout := default_timeout |} |},
         record Acquire w)
    end.
Proof.
  unfold RAGCLI_init, bind, ret. rewrite RAGAPIClient_init_runs.
  now destruct (client_failure w).
Qed.

(** ** The session *)

Section SessionProperties.

Variable rt : Runtime.

Section Quiet.

Variable P : event -> bool.
Hypothesis P_print : forall s, P (Print s) = true.
Hypothesis P_send : forall r, P (Send r) = true.
Hypothesis P_prompt : forall s, P (Prompt s) = true.
Hypothesis P_input : forall i, P (Input i) = true.
Hypothesis P_print_exc : forall e, P (PrintExc e) = true.
Hypothesis P_acquire : P Acquire = true.

Lemma adds_print (s : string) : adds_only P (print s).
Proof. apply adds_emit, P_print. Qed.

Lemma adds_check_health (self : RAGAPIClient) :
  adds_only P (check_health rt self).
Proof.
  intros w. exists [Send (health_request self)].
  rewrite check_health_sends. cbn. now rewrite P_send.
Qed.

Lemma adds_ask_request (self : RAGAPIClient) (q : string) :
  adds_only P (ask_request rt self q).
Proof.
  intros w. exists [Send (question_request self q)].
  rewrite ask_request_sends. cbn. now rewrite P_send.
Qed.

Lemma adds_ask_question (self : RAGAPIClient) (q : string) :
  adds_only P (ask_question rt self q).
Proof.
  unfold ask_question. destruct ((q =? "") || (strip q =? ""));
    [apply adds_raise | apply adds_ask_request].
Qed.

Lemma adds_print_sources (l : list pyval) : adds_only P (print_sources rt l).
Proof.
  induction l as [|x l IH]; cbn [print_sources];
    adds_with ltac:(apply adds_print).
Qed.

Lemma adds_print_result (result : APIAnswer) :
  adds_only P (print_result rt result).
Proof.
  unfold print_result.
  adds_with ltac:(first [apply adds_print | apply adds_print_sources]).
Qed.

Lemma adds_print_banner : adds_only P print_banner.
Proof. unfold print_banner. adds_with ltac:(apply adds_print). Qed.

Lemma adds_startup (self : RAGCLI) : adds_only P (startup rt self).
Proof.
  unfold startup.
  adds_with ltac:(first [apply adds_print | apply adds_check_health]).
Qed.

Lemma adds_input (prompt : string) (i : input_event) :
  adds_only P (input prompt i).
Proof.
  unfold input. adds_with ltac:(apply adds_emit; solve [auto]).
Qed.

Lemma adds_iteration (ask : string -> M APIAnswer) (i : input_event) :
  (forall q, adds_only P (ask q)) -> adds_only P (iteration_with rt ask i).
Proof.
  intros H. unfold iteration_with.
  adds_with ltac:(first [ apply adds_print | apply adds_input
                         | apply adds_print_result | apply H
                         | apply adds_emit; solve [auto] ]).
Qed.

Lemma adds_loop (ask : string -> M APIAnswer) (script : list input_event) :
  (forall q, adds_only P (ask q)) -> adds_only P (loop_with rt ask script).
Proof.
  intros H. induction script as [|i rest IH]; intros w; cbn [loop_with].
  - exists [Prompt question_prompt]. cbn. now rewrite P_prompt.
  - destruct (adds_iteration ask i H w) as (t & E & F).
    destruct (iteration_with rt ask i w) as [[[|]|e] w']; cbn in E; subst w'.
    + destruct (IH (extend w t)) as (u & E' & F'). exists (t ++ u)%list.
      rewrite E', extend_extend, forallb_app, F, F'. auto.
    + exists t. auto.
    + exists t. auto.
Qed.

Lemma adds_run (self : RAGCLI) (script : list input_event) :
  adds_only P (run rt self script).
Proof.
  intros w. unfold run.
  destruct (adds_bind P print_banner (fun _ => startup rt self)
              adds_print_banner (fun _ => adds_startup self) w) as (t & E & F).
  destruct (bind print_banner (fun _ => startup rt self) w) as [[[]|e] w'];
    cbn in E; subst w'.
  - destruct (adds_loop (ask_question rt (api_client self)) script
                (adds_ask_question (api_client self)) (extend w t))
      as (u & E' & F').
    exists (t ++ u)%list. unfold loop.
    rewrite E', extend_extend, forallb_app, F, F'. auto.
  - exists t. auto.
Qed.

Lemma adds_main (script : list input_event) : adds_only P (main rt script).
Proof.
  intros w. unfold main. rewrite RAGCLI_init_runs.
  destruct (client_failure w) as [e|].
  - exists []. now rewrite extend_nil.
  - match goal with
    | |- context [run rt ?cli script ?w'] =>
        destruct (adds_run cli script w') as (u & E & F);
        exists (Acquire :: u)
    end.
    cbn [snd]. rewrite E. split.
    + unfold extend, record; cbn. now rewrite <- app_assoc.
    + cbn. now rewrite P_acquire, F.
Qed.

End Quiet.

(** The loop passes on only questions that are not empty once trimmed. *)
Lemma iteration_asks_nonblank (self : RAGCLI) (i : input_event) (w : World) :
  iteration rt self i w
  = iteration_with rt (ask_request rt (api_client self)) i w.
Proof.
  unfold iteration, iteration_with, try_except, bind.
  destruct (input question_prompt i w) as [[line|e] w1]; [|reflexivity].
  destruct (mem (lower (strip line)) exit_keywords); [reflexivity|].
  destruct (strip line =? "") eqn:E; [reflexivity|].
  apply String.eqb_neq in E.
  rewrite (ask_question_nonblank rt (api_client self) (strip line));
    [reflexivity|].
  now rewrite strip_idempotent.
Qed.

(** Every pass through the loop starts by writing the prompt. *)
Lemma iteration_prompts (self : RAGCLI) (i : input_event) (w : World) :
  exists u,
    snd (iteration rt self i w) = extend (record (Prompt question_prompt) w) u.
Proof.
  unfold iteration, iteration_with, input.
  match goal with
  | |- exists u, snd (try_except (bind (bind (emit ?ev) ?k1) ?k) ?h w) = _ =>
      change (try_except (bind (bind (emit ev) k1) k) h w)
        with (try_except (bind (k1 tt) k) h (record ev w));
      assert (A : adds_only any_event (try_except (bind (k1 tt) k) h))
  end.
  { adds_with ltac:(first [ apply adds_print_result; reflexivity
                          | apply adds_ask_question; reflexivity ]). }
  destruct (A (record (Prompt question_prompt) w)) as (u & E & _). eauto.
Qed.

Lemma loop_prompts (self : RAGCLI) (script : list input_event) (w : World) :
  exists t,
    trace (snd (loop rt self script w))
    = (trace w ++ Prompt question_prompt :: t)%list.
Proof.
  destruct script as [|i rest]; unfold loop; cbn [loop_with].
  - exists []. reflexivity.
  - fold (iteration rt self i w).
    destruct (iteration_prompts self i w) as (u & S).
    destruct (iteration rt self i w) as [[[|]|e] w']; cbn [snd] in S |- *;
      subst w'.
    + assert (A : adds_only any_event
                    (loop_with rt (ask_question rt (api_client self)) rest)).
      { apply adds_loop; try reflexivity.
        intros q. apply adds_ask_question; reflexivity. }
      destruct (A (extend (record (Prompt question_prompt) w) u))
        as (v & E & _).
      rewrite E. exists (u ++ v)%list. unfold extend, record; cbn.
      now rewrite <- !app_assoc.
    + exists u. unfold extend, record; cbn. now rewrite <- app_assoc.
    + exists u. unfold extend, record; cbn. now rewrite <- app_assoc.
Qed.

(** The loop depends on the client's operation only at questions that are
    not empty once trimmed. *)
Lemma loop_with_agree (ask1 ask2 : string -> M APIAnswer)
  (script : list input_event) (w : World) :
  (forall q, strip q <> "" -> ask1 q = ask2 q) ->
  loop_with rt ask1 script w = loop_with rt ask2 script w.
Proof.
  intros H. revert w. induction script as [|i rest IH]; intros w;
    cbn [loop_with]; [reflexivity|].
  assert (E : iteration_with rt ask1 i w = iteration_with rt ask2 i w).
  { unfold iteration_with, try_except, bind.
    destruct (input question_prompt i w) as [[line|e] w1]; [|reflexivity].
    destruct (mem (lower (strip line)) exit_keywords); [reflexivity|].
    destruct (strip line =? "") eqn:E; [reflexivity|].
    apply String.eqb_neq in E. rewrite (H (strip line)); [reflexivity|].
    now rewrite strip_idempotent. }
  rewrite E. destruct (iteration_with rt ask2 i w) as [[[|]|e] w']; auto.
Qed.

(** The request part of [ask_question] always leaves a request on the
    trace. *)
Lemma ask_request_changes_world (self : RAGAPIClient) (q : string)
  (w : World) :
  snd (ask_request rt self q w) <> w.
Proof.
  rewrite ask_request_sends. intros H. apply (f_equal trace) in H.
  apply (f_equal (@List.length event)) in H. cbn in H.
  rewrite length_app in H. cbn in H. lia.
Qed.

(** C10. The loop never calls [ask_question] with a question that is empty
    once trimmed: it runs as the loop does whose client skips the check of
    the question and goes straight to the request.  The two could not agree
    if the loop ever reached the [ValueError] of the check, since the check
    fails without a request and the request part never does without one. *)
Theorem C10_loop_never_asks_blank_question (self : RAGCLI)
  (script : list input_event) (w : World) :
  loop rt self script w
  = loop_with rt (ask_request rt (api_client self)) script w
  /\ forall q w', snd (ask_request rt (api_client self) q w') <> w'.
Proof.
  split; [|intros q w'; apply ask_request_changes_world].
  unfold loop. apply loop_with_agree. intros q Q.
  now apply ask_question_nonblank.
Qed.

(** A loop that waits at the prompt after the inputs [before] goes on with
    the inputs that follow, from the world in which it wrote that prompt. *)
Lemma loop_with_app (ask : string -> M APIAnswer)
  (before : list input_event) (w w' : World) :
  loop_with rt ask before w = (Waiting, w') ->
  exists w1,
    w' = record (Prompt question_prompt) w1
    /\ forall more,
         loop_with rt ask (before ++ more) w = loop_with rt ask more w1.
Proof.
  revert w. induction before as [|i rest IH]; intros w; cbn [loop_with app].
  - intros [= <-]. now exists w.
  - destruct (iteration_with rt ask i w) as [[[|]|e] w2]; try discriminate.
    apply IH.
Qed.

Lemma blocked_is_waiting (r : run_end) :
  process_end_of r = Blocked -> r = Waiting.
Proof.
  destruct r as [|e|]; cbn; try congruence. destruct e; congruence.
Qed.

(** C4, as the code has it.  The session never releases the connection:
    however [main] ends (exit keyword, interrupt, fatal start), the trace has
    as many releases as before.  And at whatever prompt the session has
    reached, after any inputs, an exit keyword ends the process with
    code 0. *)
Theorem C4_session_never_releases (script : list input_event) (w : World) :
  releases (trace (snd (main rt script w))) = releases (trace w)
  /\ (forall line rest,
        fst (main rt script w) = Blocked ->
        mem (lower (strip line)) exit_keywords = true ->
        fst (main rt (script ++ Line line :: rest) w) = Exited 0).
Proof.
  split.
  - assert (A : adds_only no_release (main rt script))
      by (apply adds_main; intros; reflexivity).
    destruct (A w) as (t & E & F). rewrite E. now apply releases_extend.
  - intros line rest. unfold main. rewrite RAGCLI_init_runs.
    destruct (client_failure w) as [e|]; cbn [fst].
    + intros B. now apply blocked_is_waiting in B.
    + unfold run.
      match goal with
      | |- context [(print_banner ;; startup rt ?cli) ?w0] =>
          destruct ((print_banner ;; startup rt cli) w0) as [[[]|e] w1]
      end; cbn [fst].
      * unfold loop. intros B K. apply blocked_is_waiting in B.
        match type of B with
        | fst ?l = _ => destruct l as [r w2] eqn:L
        end.
        cbn [fst] in B. subst r.
        apply loop_with_app in L as (w3 & _ & A). rewrite A.
        cbn [loop_with].
        unfold iteration_with, input, try_except, bind, emit, ret, print.
        cbv beta iota zeta. rewrite K. reflexivity.
      * intros B. now apply blocked_is_waiting in B.
Qed.

(** What the start of [run] does when the health check raises [e]. *)
Lemma startup_after_failure (cli : RAGCLI) (w0 w1 : World) (e : exception) :
  check_health rt (api_client cli)
    (snd ((print_banner ;; print "Checking server connection...") w0))
  = (Raise e, w1) ->
  (print_banner ;; startup rt cli) w0
  = if isinstance e ServerNotReachableError then
      (Raise (SystemExit 1),
       record (Print (nl ++ "Or set AISHE_API_URL to point to a running server."))
         (record (Print "  nix run .#server")
            (record (Print (nl ++ "Please start the server first:"))
               (record (Print (nl ++ "❌ Error: " ++ str_exc e)) w1))))
    else if isinstance e Exception then
      (Return tt,
       record (Print ("Continuing anyway..." ++ nl))
         (record (Print (nl ++ "⚠ Warning: Could not check server health: "
                         ++ str_exc e)) w1))
    else (Raise e, w1).
Proof.
  unfold startup, try_except, print_banner, print, bind, emit.
  cbv beta iota. cbn [fst snd]. intros H. rewrite H.
  destruct (isinstance e ServerNotReachableError); [reflexivity|].
  destruct (isinstance e Exception); reflexivity.
Qed.

(** C5. When the health check at the start raises
    [ServerNotReachableError], the session prints the error and the process
    ends with code 1, and neither a prompt nor an input is on the trace that
    was not there before; when it raises any other [Exception], the session
    prints the warning and goes on to the loop, which writes the prompt. *)
Theorem C5_startup_probe_failure (script : list input_event)
  (w w0 w1 : World) (cli : RAGCLI) (e : exception) :
  RAGCLI_init None w = (Return cli, w0) ->
  check_health rt (api_client cli)
    (snd ((print_banner ;; print "Checking server connection...") w0))
  = (Raise e, w1) ->
  (isinstance e ServerNotReachableError = true ->
   fst (main rt script w) = Exited 1
   /\ In (Print (nl ++ "❌ Error: " ++ str_exc e))
        (trace (snd (main rt script w)))
   /\ filter is_prompt (trace (snd (main rt script w)))
      = filter is_prompt (trace w))
  /\ (isinstance e ServerNotReachableError = false ->
      isinstance e Exception = true ->
      exists w2 t,
        trace w2
        = (trace w1
           ++ [Print (nl ++ "⚠ Warning: Could not check server health: "
                      ++ str_exc e);
               Print ("Continuing anyway..." ++ nl)])%list
        /\ main rt script w
           = (process_end_of (fst (loop rt cli script w2)),
              snd (loop rt cli script w2))
        /\ trace (snd (main rt script w))
           = (trace w2 ++ Prompt question_prompt :: t)%list).
Proof.
  intros I H.
  assert (W1 : w1 = record (Send (health_request (api_client cli)))
                      (snd ((print_banner ;;
                             print "Checking server connection...") w0))).
  { rewrite <- (check_health_sends rt). now rewrite H. }
  assert (W0 : w0 = record Acquire w).
  { revert I. rewrite RAGCLI_init_runs.
    destruct (client_failure w); [discriminate|]. now intros [= _ <-]. }
  pose proof (startup_after_failure cli w0 w1 e H) as U.
  unfold main. rewrite I. unfold run. rewrite U. clear U. split.
  - intros S. rewrite S. cbn [fst snd process_end_of].
    split; [reflexivity|]. split.
    + unfold record; cbn [trace]. rewrite !in_app_iff. cbn. tauto.
    + assert (A : adds_only no_prompt
                    (print_banner ;; print "Checking server connection...")).
      { apply adds_bind; [apply adds_print_banner; reflexivity|].
        intros _. apply adds_emit. reflexivity. }
      destruct (A w0) as (t & E & F). rewrite W1, E, W0.
      unfold record, extend. cbn [trace].
      rewrite <- !app_assoc, (app_assoc t).
      rewrite (app_assoc (trace w)), (filter_extend is_prompt).
      * apply (filter_extend is_prompt). reflexivity.
      * fold no_prompt. rewrite !forallb_app, F. reflexivity.
  - intros S X. rewrite S, X.
    match goal with
    | |- context [loop rt cli script ?w2] =>
        exists w2; destruct (loop_prompts cli script w2) as (t & T); exists t
    end.
    split; [|split].
    + unfold record; cbn [trace]. now rewrite <- app_assoc.
    + reflexivity.
    + exact T.
Qed.

End SessionProperties.

(* ------------------------------------------------------------------ *)
(** ** Scenarios *)

(** C2. A success response whose body is no JSON makes [ask_question]
    raise the decoder's [JSONDecodeError], a [ValueError] and no
    [APIClientError], where [check_health] raises the generic
    [APIClientError] that carries the description: the [except ValueError]
    clause of [ask_question] lets the decoding error through. *)
Theorem C2_malformed_answer_escapes_as_value_error :
  fst (ask_question cpython local_client france (world_of html_server))
  = Raise (Exc JSONDecodeError "Expecting value: line 1 column 1 (char 0)")
  /\ isinstance (Exc JSONDecodeError "Expecting value: line 1 column 1 (char 0)")
       ValueError = true
  /\ isinstance (Exc JSONDecodeError "Expecting value: line 1 column 1 (char 0)")
       APIClientError = false
  /\ fst (check_health cpython local_client (world_of html_server))
     = Raise (Exc APIClientError
                "Unexpected error: Expecting value: line 1 column 1 (char 0)").
Proof. repeat split; vm_compute; reflexivity. Qed.

Lemma C1_witness :
  strip "   " = ""
  /\ ask_question cpython local_client "   " (world_of paris_server)
     = (Raise (Exc ValueError "Question cannot be empty"),
        world_of paris_server)
  /\ isinstance (Exc ValueError "Question cannot be empty") APIClientError
     = false.
Proof.
  split; [reflexivity|].
  apply (C1_blank_question_fails_locally cpython local_client "   "
           (world_of paris_server)).
  reflexivity.
Defined.

(** The health probe of the default client times out: the message names the
    address and does not state the timeout of 120.0 seconds. *)
Lemma C3_health_timeout_message_omits_timeout :
  fst (check_health cpython local_client (world_of silent_server))
  = Raise (Exc ServerNotReachableError
             "Request to http://localhost:8000 timed out.")
  /\ py_str cpython (PFloat (timeout local_client)) = "120.0"
  /\ contains (py_str cpython (PFloat (timeout local_client)))
       "Request to http://localhost:8000 timed out." = false
  /\ contains "120" "Request to http://localhost:8000 timed out." = false.
Proof. repeat split; vm_compute; reflexivity. Qed.

Lemma C3_witness :
  next_reply (world_of silent_server) (health_request local_client)
  = Fails (Exc ReadTimeout "timed out")
  /\ next_reply (world_of silent_server) (question_request local_client france)
     = Fails (Exc ReadTimeout "timed out")
  /\ isinstance (Exc ReadTimeout "timed out") TimeoutException = true
  /\ strip france <> ""
  /\ exists mh mq,
       fst (check_health cpython local_client (world_of silent_server))
       = Raise (Exc ServerNotReachableError mh)
       /\ fst (ask_question cpython local_client france
                 (world_of silent_server))
          = Raise (Exc ServerNotReachableError mq)
       /\ contains (base_url local_client) mh = true
       /\ contains (py_str cpython (PFloat (timeout local_client))) mq = true
       /\ contains "The question might be too complex" mq = true
       /\ mh <> mq.
Proof.
  assert (Q : strip france <> "") by (vm_compute; discriminate).
  repeat (split; [first [reflexivity | exact Q]|]).
  exact (C3_timeout_is_not_reachable cpython local_client france
           (world_of silent_server) (Exc ReadTimeout "timed out")
           eq_refl eq_refl eq_refl Q).
Defined.

(** The user enters "quit": the process ends with code 0 and the connection
    was released not once but never; so it is after an interrupt at the
    prompt and after the fatal start. *)
Lemma C4_quit_leaves_connection_unreleased :
  fst (main cpython [Line "quit"] (world_of paris_server)) = Exited 0
  /\ releases (trace (snd (main cpython [Line "quit"] (world_of paris_server))))
     = 0
  /\ releases (trace (snd (main cpython [Line "quit"] (world_of paris_server))))
     <> 1
  /\ fst (main cpython [Interrupt] (world_of paris_server)) = Exited 0
  /\ releases (trace (snd (main cpython [Interrupt] (world_of paris_server))))
     = 0
  /\ fst (main cpython [] (world_of refusing_server)) = Exited 1
  /\ releases (trace (snd (main cpython [] (world_of refusing_server)))) = 0.
Proof. repeat split; vm_compute; (reflexivity || discriminate). Qed.

Lemma C4_witness :
  fst (main cpython [Line france; Line "  "] (world_of paris_server))
  = Blocked
  /\ mem (lower (strip "quit")) exit_keywords = true
  /\ releases
       (trace (snd (main cpython [Line france; Line "  "]
                      (world_of paris_server))))
     = releases (trace (world_of paris_server))
  /\ fst (main cpython ([Line france; Line "  "] ++ [Line "quit"])
            (world_of paris_server))
     = Exited 0.
Proof.
  assert (B : fst (main cpython [Line france; Line "  "]
                     (world_of paris_server)) = Blocked)
    by (vm_compute; reflexivity).
  split; [exact B|]. split; [reflexivity|].
  destruct (C4_session_never_releases cpython [Line france; Line "  "]
              (world_of paris_server)) as [N Q].
  split; [exact N|].
  exact (Q "quit" [] B eq_refl).
Defined.

Lemma C5_witness :
  (RAGCLI_init None (world_of refusing_server)
   = (Return local_cli, started (world_of refusing_server))
   /\ isinstance
        (Exc ServerNotReachableError
           "Cannot connect to server at http://localhost:8000. Make sure the server is running.")
        ServerNotReachableError = true
   /\ fst (main cpython [Line france] (world_of refusing_server)) = Exited 1
   /\ filter is_prompt
        (trace (snd (main cpython [Line france] (world_of refusing_server))))
      = [])
  /\ (RAGCLI_init None (world_of degraded_server)
      = (Return local_cli, started (world_of degraded_server))
      /\ isinstance (Exc ServerError "Server returned error: 500")
           ServerNotReachableError = false
      /\ isinstance (Exc ServerError "Server returned error: 500") Exception
         = true
      /\ exists w2 t,
           main cpython [Line "quit"] (world_of degraded_server)
           = (process_end_of (fst (loop cpython local_cli [Line "quit"] w2)),
              snd (loop cpython local_cli [Line "quit"] w2))
           /\ trace (snd (main cpython [Line "quit"] (world_of degraded_server)))
              = (trace w2 ++ Prompt question_prompt :: t)%list).
Proof.
  split.
  - assert (I : RAGCLI_init None (world_of refusing_server)
                = (Return local_cli, started (world_of refusing_server)))
      by (vm_compute; reflexivity).
    assert (H : check_health cpython (api_client local_cli)
                  (probing (world_of refusing_server))
                = (Raise (Exc ServerNotReachableError
                            "Cannot connect to server at http://localhost:8000. Make sure the server is running."),
                   snd (check_health cpython (api_client local_cli)
                          (probing (world_of refusing_server)))))
      by (vm_compute; reflexivity).
    destruct (C5_startup_probe_failure cpython [Line france]
                (world_of refusing_server) _ _ local_cli _ I H) as [F _].
    destruct (F eq_refl) as (X & _ & Z).
    repeat split; auto.
  - assert (I : RAGCLI_init None (world_of degraded_server)
                = (Return local_cli, started (world_of degraded_server)))
      by (vm_compute; reflexivity).
    assert (H : check_health cpython (api_client local_cli)
                  (probing (world_of degraded_server))
                = (Raise (Exc ServerError "Server returned error: 500"),
                   snd (check_health cpython (api_client local_cli)
                          (probing (world_of degraded_server)))))
      by (vm_compute; reflexivity).
    destruct (C5_startup_probe_failure cpython [Line "quit"]
                (world_of degraded_server) _ _ local_cli _ I H) as [_ G].
    destruct (G eq_refl eq_refl) as (w2 & t & _ & X & Y).
    repeat split; auto. exists w2, t. auto.
Defined.

Lemma C6_witness :
  next_reply (world_of overloaded_server) (question_request local_client france)
  = Responds (json_response 503 (PDict [("detail", PStr "Ollama is down")]))
  /\ is_success (json_response 503 (PDict [("detail", PStr "Ollama is down")]))
     = false
  /\ strip france <> ""
  /\ exists m,
       fst (ask_question cpython local_client france
              (world_of overloaded_server)) = Raise (Exc ServerError m)
       /\ contains "503" m = true
       /\ contains "Ollama is down" m = true.
Proof.
  assert (Q : strip france <> "") by (vm_compute; discriminate).
  repeat (split; [first [reflexivity | exact Q]|]).
  destruct (C6_failure_status_is_server_error cpython local_client france
              (world_of overloaded_server)
              (json_response 503 (PDict [("detail", PStr "Ollama is down")]))
              eq_refl eq_refl Q) as (m & E & S & D & _).
  exists m. split; [exact E|]. split; [exact S|].
  exact (D [("detail", PStr "Ollama is down")] (PStr "Ollama is down")
           eq_refl eq_refl).
Defined.

Lemma C7_witness :
  strip ("  " ++ france ++ "  ") <> ""
  /\ requests (trace (snd (ask_question cpython local_client
                             ("  " ++ france ++ "  ")
                             (world_of paris_server))))
     = [{| method := POST;
           url := "http://localhost:8000/api/v1/ask";
           json := Some (PDict [("question", PStr france)]) |}]
  /\ exists result,
       fst (ask_question cpython local_client ("  " ++ france ++ "  ")
              (world_of paris_server)) = Return result
       /\ map source_fields (sources result)
          = [Some (PInt 1, PStr "France", PStr "http://x")].
Proof.
  assert (Q : strip ("  " ++ france ++ "  ") <> "")
    by (vm_compute; discriminate).
  split; [exact Q|].
  destruct (C7_trimmed_question_and_sources_in_order cpython local_client
              ("  " ++ france ++ "  ") (world_of paris_server) Q)
    as (R & _ & S).
  split; [exact R|].
  destruct (S _ _ _ _ _ eq_refl eq_refl eq_refl eq_refl eq_refl eq_refl eq_refl)
    as (result & E & _ & _ & F).
  exists result. split; [exact E | exact F].
Defined.

Lemma C8_witness :
  next_reply (world_of refusing_server) (health_request local_client)
  = Fails (Exc ConnectError "[Errno 111] Connection refused")
  /\ next_reply (world_of refusing_server)
       (question_request local_client france)
     = Fails (Exc ConnectError "[Errno 111] Connection refused")
  /\ isinstance (Exc ConnectError "[Errno 111] Connection refused")
       ConnectError = true
  /\ strip france <> ""
  /\ exists mh mq,
       fst (check_health cpython local_client (world_of refusing_server))
       = Raise (Exc ServerNotReachableError mh)
       /\ fst (ask_question cpython local_client france
                 (world_of refusing_server))
          = Raise (Exc ServerNotReachableError mq)
       /\ contains (base_url local_client) mh = true
       /\ contains "Make sure the server is running" mh = true
       /\ contains (base_url local_client) mq = true
       /\ contains "Make sure the server is running" mq = true.
Proof.
  assert (Q : strip france <> "") by (vm_compute; discriminate).
  repeat (split; [first [reflexivity | exact Q]|]).
  exact (C8_connection_failure_is_not_reachable cpython local_client france
           (world_of refusing_server)
           (Exc ConnectError "[Errno 111] Connection refused")
           eq_refl eq_refl eq_refl Q).
Defined.

(** The client accepts an answer whose processing time is negative and
    whose source is numbered 0. *)
Lemma C9_answer_outside_data_model :
  exists result,
    fst (ask_question cpython local_client france (world_of sloppy_server))
    = Return result
    /\ processing_time result = PFloat (-1.5)%float
    /\ valid_processing_time (processing_time result) = false
    /\ map source_fields (sources result)
       = [Some (PInt 0, PStr "France", PStr "http://x")]
    /\ forallb valid_source (sources result) = false
    /\ valid_answer result = false.
Proof. eexists. repeat split; vm_compute; reflexivity. Qed.

Lemma C9_witness :
  fst (ask_question cpython local_client france (world_of paris_server))
  = Return paris_answer
  /\ valid_answer paris_answer = true
  /\ exists r d listed items,
       next_reply (world_of paris_server)
         (question_request local_client france) = Responds r
       /\ decoded r = inl (PDict d)
       /\ lookup "processing_time" d = Some (processing_time paris_answer)
       /\ lookup "sources" d = Some listed
       /\ iterate cpython listed = Return items
       /\ map source_fields (sources paris_answer) = map source_fields items
       /\ valid_answer paris_answer
          = valid_processing_time (processing_time paris_answer)
            && forallb valid_source items.
Proof.
  assert (H : fst (ask_question cpython local_client france
                     (world_of paris_server)) = Return paris_answer)
    by (vm_compute; reflexivity).
  split; [exact H|]. split; [vm_compute; reflexivity|].
  exact (C9_answer_carries_received_values cpython local_client france
           (world_of paris_server) paris_answer H).
Defined.

(* ================================================================== *)
(** * Further properties of the client and the session *)

(** ** Construction of the client *)

Lemma rstrip_chars_tail (p : ascii -> bool) (s : string) :
  exists t, s = rstrip_chars p s ++ t /\ all_chars p t = true.
Proof.
  induction s as [|c s (t & E & A)].
  - exists "". split; reflexivity.
  - cbn [rstrip_chars]. destruct (all_chars p (String c s)) eqn:X.
    + exists (String c s). split; [reflexivity | exact X].
    + exists t. split; [cbn; now rewrite <- E | exact A].
Qed.

Lemma rstrip_chars_empty (p : ascii -> bool) (s : string) :
  rstrip_chars p s = "" -> all_chars p s = true.
Proof.
  destruct s as [|c s]; [reflexivity|]. cbn [rstrip_chars].
  destruct (all_chars p (String c s)); [reflexivity | discriminate].
Qed.

Lemma rstrip_chars_clean (p : ascii -> bool) (s : string) :
  ends_with p (rstrip_chars p s) = false.
Proof.
  induction s as [|c s IH]; [reflexivity|]. cbn [rstrip_chars].
  destruct (all_chars p (String c s)) eqn:X; [reflexivity|].
  cbn [ends_with]. destruct (rstrip_chars p s) eqn:R; [|exact IH].
  apply rstrip_chars_empty in R. cbn in X. rewrite R, andb_true_r in X.
  exact X.
Qed.

(** X1. When httpx builds its client, the constructor returns: the client
    starts from the address given, else from the environment variable, else
    from the default, and keeps it without its trailing slashes (what it
    drops is slashes only, and what it keeps ends in none); it has acquired
    one connection and sent nothing.  When httpx raises instead, the
    constructor raises the same exception and nothing has happened. *)
Theorem X1_base_url_has_no_trailing_slash (url : option string) (t : float)
  (w : World) :
  (client_failure w = None ->
   exists self tail,
     RAGAPIClient_init url t w = (Return self, record Acquire w)
     /\ resolve_url url w = base_url self ++ tail
     /\ all_chars slash tail = true
     /\ ends_with slash (base_url self) = false
     /\ timeout self = t)
  /\ (forall e, client_failure w = Some e ->
      RAGAPIClient_init url t w = (Raise e, w)).
Proof.
  rewrite RAGAPIClient_init_runs. split.
  - intros ->.
    destruct (rstrip_chars_tail slash (resolve_url url w)) as (tail & E & A).
    exists {| base_url := rstrip_chars slash (resolve_url url w);
              timeout := t |}, tail.
    split; [reflexivity|]. split; [exact E|]. split; [exact A|].
    split; [apply rstrip_chars_clean | reflexivity].
  - now intros e ->.
Qed.

(** ** The two operations of the client *)

Lemma no_exception_is_uncaught (e : exception) :
  isinstance e Exception = false ->
  isinstance e ConnectError = false
  /\ isinstance e TimeoutException = false
  /\ isinstance e ValueError = false
  /\ plain e = true \/ exists n, e = SystemExit n.
Proof.
  destruct e as [c m|m r|n].
  - destruct c; vm_compute; intros H; try discriminate H; left; auto.
  - vm_compute. discriminate.
  - right. eauto.
Qed.

Section Operations.

Variable rt : Runtime.

(** X2. A success response whose body is a JSON object with [status] and
    [ollama_accessible] makes [check_health] return them as they are; the
    [message] is the entry of that name, and [None] when there is none. *)
Theorem X2_health_is_read_from_the_body (self : RAGAPIClient) (w : World)
  (r : Response) (d : list (string * pyval)) (s a : pyval) :
  next_reply w (health_request self) = Responds r ->
  is_success r = true ->
  decoded r = inl (PDict d) ->
  lookup "status" d = Some s ->
  lookup "ollama_accessible" d = Some a ->
  fst (check_health rt self w)
  = Return {| status := s;
              ollama_accessible := a;
              health_message := match lookup "message" d with
                                | Some m => m
                                | None => PNone
                                end |}.
Proof.
  intros N S D Ls La.
  unfold check_health, try_except, bind, send, raise_for_status, lift, ret,
    response_json, getitem, dict_get.
  rewrite N, S, D, Ls, La. destruct (lookup "message" d); reflexivity.
Qed.

(** X3. A success response whose JSON object lacks [status], or has it and
    lacks [ollama_accessible], makes [check_health] raise the generic
    [APIClientError]; its message is "Unexpected error: " and the [repr] of
    the first missing key. *)
Theorem X3_health_without_required_key (self : RAGAPIClient) (w : World)
  (r : Response) (d : list (string * pyval)) :
  next_reply w (health_request self) = Responds r ->
  is_success r = true ->
  decoded r = inl (PDict d) ->
  (lookup "status" d = None ->
   fst (check_health rt self w)
   = Raise (Exc APIClientError
              ("Unexpected error: " ++ py_repr rt (PStr "status"))))
  /\ (forall s, lookup "status" d = Some s ->
      lookup "ollama_accessible" d = None ->
      fst (check_health rt self w)
      = Raise (Exc APIClientError
                 ("Unexpected error: "
                  ++ py_repr rt (PStr "ollama_accessible")))).
Proof.
  intros N S D. split; [intros L | intros s L L'];
    unfold check_health, try_except, bind, send, raise_for_status, lift, ret,
      response_json, getitem;
    rewrite N, S, D, L; [|rewrite L']; reflexivity.
Qed.

(** X4. A response with a failure status makes [check_health] raise
    [ServerError] with the status code in the message, whatever the body:
    the body is not read. *)
Theorem X4_health_failure_status (self : RAGAPIClient) (w : World)
  (r : Response) :
  next_reply w (health_request self) = Responds r ->
  is_success r = false ->
  check_health rt self w
  = (Raise (Exc ServerError
              ("Server returned error: " ++ str_int (status_code r))),
     record (Send (health_request self)) w).
Proof.
  intros N S. rewrite (check_health_failure_status rt self w r N S).
  reflexivity.
Qed.

Lemma ask_question_effect (self : RAGAPIClient) (q : string) (w : World) :
  snd (ask_question rt self q w)
  = if strip q =? "" then w else record (Send (question_request self q)) w.
Proof.
  unfold ask_question. destruct (strip q =? "") eqn:E.
  - now rewrite orb_true_r.
  - rewrite orb_false_r. destruct (q =? "") eqn:Q0; [|apply ask_request_sends].
    apply String.eqb_eq in Q0. subst q. discriminate E.
Qed.

(** X5. Whatever the server does, the only effect of [check_health] is one
    request, and the only effect of [ask_question] is one request, or none
    when the question is empty once trimmed: neither repeats a request,
    prints, or releases the connection. *)
Theorem X5_one_request_and_nothing_else (self : RAGAPIClient) (q : string)
  (w : World) :
  snd (check_health rt self w) = record (Send (health_request self)) w
  /\ snd (ask_question rt self q w)
     = if strip q =? "" then w
       else record (Send (question_request self q)) w.
Proof. split; [apply check_health_sends | apply ask_question_effect]. Qed.

(** X6. An exception of the transport that is no [Exception] (an interrupt)
    passes through both operations as it is. *)
Theorem X6_interrupts_pass_through (self : RAGAPIClient) (q : string)
  (w : World) (c : exc_class) (m : string) :
  next_reply w (health_request self) = Fails (Exc c m) ->
  next_reply w (question_request self q) = Fails (Exc c m) ->
  issubclass c Exception = false ->
  strip q <> "" ->
  fst (check_health rt self w) = Raise (Exc c m)
  /\ fst (ask_question rt self q w) = Raise (Exc c m).
Proof.
  intros Nh Nq X Q.
  assert (U : isinstance (Exc c m) Exception = false) by exact X.
  destruct (no_exception_is_uncaught _ U) as [(C & T & V & _)|(n & F)];
    [|discriminate F].
  rewrite (check_health_transport_failure rt self w _ Nh).
  rewrite (ask_question_nonblank rt self q Q).
  rewrite (ask_request_transport_failure rt self q w _ Nq).
  unfold check_health_except, ask_question_except. rewrite C, T, V, U.
  split; reflexivity.
Qed.

(** What the [try] of [ask_question] does with a success response whose
    body decodes: it ends as the conversion of the body does. *)
Lemma ask_request_conversion_failure (self : RAGAPIClient) (q : string)
  (w : World) (r : Response) (data : pyval) (e : exception) :
  next_reply w (question_request self q) = Responds r ->
  is_success r = true ->
  decoded r = inl data ->
  convert_sources rt data = Raise e ->
  ask_request rt self q w
  = ask_question_except rt self e (record (Send (question_request self q)) w).
Proof.
  intros N S D C.
  unfold ask_request, try_except, bind, send, raise_for_status, lift, ret,
    response_json.
  rewrite N, S, D, C. reflexivity.
Qed.

Lemma wrapped_as_unexpected (self : RAGAPIClient) (c : exc_class)
  (m : string) (w : World) :
  isinstance (Exc c m) ConnectError = false ->
  isinstance (Exc c m) TimeoutException = false ->
  isinstance (Exc c m) ValueError = false ->
  isinstance (Exc c m) Exception = true ->
  ask_question_except rt self (Exc c m) w
  = (Raise (Exc APIClientError ("Unexpected error: " ++ m)), w).
Proof.
  intros C T V X. unfold ask_question_except. rewrite C, T, V, X. reflexivity.
Qed.

(** X7. A success response whose JSON object lacks [sources], or [answer],
    or [processing_time] makes [ask_question] raise the generic
    [APIClientError], whose message is "Unexpected error: " and the [repr]
    of the missing key; [sources] is looked up first, then [answer], then
    [processing_time]. *)
Theorem X7_answer_without_required_key (self : RAGAPIClient) (q : string)
  (w : World) (r : Response) (d : list (string * pyval)) :
  strip q <> "" ->
  next_reply w (question_request self q) = Responds r ->
  is_success r = true ->
  decoded r = inl (PDict d) ->
  (lookup "sources" d = None ->
   fst (ask_question rt self q w)
   = Raise (Exc APIClientError
              ("Unexpected error: " ++ py_repr rt (PStr "sources"))))
  /\ (forall listed,
      lookup "sources" d = Some (PList listed) ->
      forallb well_formed_source listed = true ->
      (lookup "answer" d = None ->
       fst (ask_question rt self q w)
       = Raise (Exc APIClientError
                  ("Unexpected error: " ++ py_repr rt (PStr "answer"))))
      /\ (forall a,
          lookup "answer" d = Some a ->
          lookup "processing_time" d = None ->
          fst (ask_question rt self q w)
          = Raise (Exc APIClientError
                     ("Unexpected error: "
                      ++ py_repr rt (PStr "processing_time"))))).
Proof.
  intros Q N S D. rewrite (ask_question_nonblank rt self q Q). split.
  - intros L.
    rewrite (ask_request_conversion_failure self q w r (PDict d)
               (Exc KeyError (py_repr rt (PStr "sources"))) N S D).
    + reflexivity.
    + unfold convert_sources, getitem, obind. now rewrite L.
  - intros listed L W.
    destruct (convert_well_formed rt listed W) as [converted C].
    split; [intros A | intros a A P];
      unfold ask_request, try_except, bind, send, raise_for_status, lift, ret,
        response_json, convert_sources, getitem, obind, iterate;
      rewrite N, S, D, L, C, A; [|rewrite P]; reflexivity.
Qed.

Lemma omap_stops (A B : Type) (f : A -> outcome B) (good rest : list A)
  (x : A) (e : exception) :
  (exists ys, omap f good = Return ys) ->
  f x = Raise e ->
  omap f (good ++ x :: rest) = Raise e.
Proof.
  intros [ys G] X. revert ys G. induction good as [|g good IH]; intros ys G.
  - cbn. now rewrite X.
  - cbn in *. destruct (f g) as [y|]; cbn in *; [|discriminate].
    destruct (omap f good) as [ys'|]; cbn in *; [|discriminate].
    now rewrite (IH ys' eq_refl).
Qed.

(** X8. A source that is a JSON object without [number], [title] or [url],
    after sources that have all three, makes [ask_question] raise the
    generic [APIClientError] naming a key that the source lacks: one
    incomplete source fails the whole answer. *)
Theorem X8_incomplete_source_fails_the_answer (self : RAGAPIClient)
  (q : string) (w : World) (r : Response) (d ds : list (string * pyval))
  (good rest : list pyval) :
  strip q <> "" ->
  next_reply w (question_request self q) = Responds r ->
  is_success r = true ->
  decoded r = inl (PDict d) ->
  lookup "sources" d = Some (PList (good ++ PDict ds :: rest)) ->
  forallb well_formed_source good = true ->
  well_formed_source (PDict ds) = false ->
  exists key,
    In key ["number"; "title"; "url"]
    /\ lookup key ds = None
    /\ fst (ask_question rt self q w)
       = Raise (Exc APIClientError
                  ("Unexpected error: " ++ py_repr rt (PStr key))).
Proof.
  intros Q N S D L G B. rewrite (ask_question_nonblank rt self q Q).
  assert (K : exists key,
             In key ["number"; "title"; "url"]
             /\ lookup key ds = None
             /\ convert_source rt (PDict ds)
                = Raise (Exc KeyError (py_repr rt (PStr key)))).
  { unfold well_formed_source, source_fields in B.
    unfold convert_source, getitem, obind.
    destruct (lookup "number" ds) eqn:L1;
      [|exists "number"; cbn; auto].
    destruct (lookup "title" ds) eqn:L2;
      [|exists "title"; cbn; auto].
    destruct (lookup "url" ds) eqn:L3;
      [discriminate|exists "url"; cbn; auto 6]. }
  destruct K as (key & I & M & C). exists key. split; [exact I|].
  split; [exact M|].
  rewrite (ask_request_conversion_failure self q w r (PDict d)
             (Exc KeyError (py_repr rt (PStr key))) N S D).
  - reflexivity.
  - unfold convert_sources, getitem, obind. rewrite L. cbn [iterate].
    apply omap_stops; [apply convert_well_formed, G | exact C].
Qed.

(** X9. For a failure status whose body is a JSON object without [detail],
    the message of the [ServerError] ends in [str()] of the whole object;
    for a body that is JSON but no object (a list, a string, a number), it
    ends in the raw text of the body. *)
Theorem X9_failure_body_without_detail (self : RAGAPIClient) (q : string)
  (w : World) (r : Response) (v : pyval) :
  strip q <> "" ->
  next_reply w (question_request self q) = Responds r ->
  is_success r = false ->
  decoded r = inl v ->
  (forall d, v = PDict d -> lookup "detail" d = None ->
   fst (ask_question rt self q w)
   = Raise (Exc ServerError
              ("Server error (" ++ str_int (status_code r) ++ "): "
               ++ py_repr rt (PDict d))))
  /\ (type_of v <> TDict ->
      fst (ask_question rt self q w)
      = Raise (Exc ServerError
                 ("Server error (" ++ str_int (status_code r) ++ "): "
                  ++ text r))).
Proof.
  intros Q N S D. rewrite (ask_question_nonblank rt self q Q).
  rewrite (ask_request_failure_status rt self q w r N S).
  unfold ask_question_except. cbn [isinstance].
  change (issubclass HTTPError ConnectError) with false.
  change (issubclass HTTPError TimeoutException) with false.
  cbv beta iota. unfold error_detail, response_json, obind. rewrite D. split.
  - intros d -> L. unfold dict_get. rewrite L. reflexivity.
  - intros T. destruct v; try reflexivity. now elim T.
Qed.

(** X10. Every exception [check_health] raises is an [APIClientError] or no
    [Exception] at all; every exception [ask_question] raises is an
    [APIClientError], a [ValueError] or no [Exception] at all; neither ever
    raises the [HTTPStatusError] of httpx. *)
Theorem X10_kinds_of_failure (self : RAGAPIClient) (q : string) (w : World)
  (e : exception) :
  (fst (check_health rt self w) = Raise e ->
   (isinstance e APIClientError = true \/ isinstance e Exception = false)
   /\ forall m r, e <> HTTPStatusError m r)
  /\ (fst (ask_question rt self q w) = Raise e ->
      (isinstance e APIClientError = true
       \/ isinstance e ValueError = true
       \/ isinstance e Exception = false)
      /\ forall m r, e <> HTTPStatusError m r).
Proof.
  split; intros H.
  - pose proof (check_health_raises rt self w e H) as K. split; [exact K|].
    intros m r ->. destruct K as [K|K]; discriminate K.
  - pose proof (ask_question_raises rt self q w e H) as K. split; [exact K|].
    intros m r ->. destruct K as [K|[K|K]]; discriminate K.
Qed.

Lemma omap_rebuilt (items converted : list pyval) :
  omap (convert_source rt) items = Return converted ->
  Forall rebuilt converted.
Proof.
  revert converted; induction items as [|x items IH]; intros converted; cbn.
  - intros [= <-]. constructor.
  - destruct (convert_source rt x) as [y|] eqn:X; cbn; [|discriminate].
    destruct (omap (convert_source rt) items) as [ys|]; cbn; [|discriminate].
    intros [= <-]. constructor; [|now apply IH].
    revert X. unfold convert_source, obind.
    destruct (getitem rt x "number") as [n|]; [|discriminate].
    destruct (getitem rt x "title") as [t|]; [|discriminate].
    destruct (getitem rt x "url") as [u|]; [|discriminate].
    intros [= <-]. now exists n, t, u.
Qed.

Lemma returned_sources_are_rebuilt (self : RAGAPIClient) (q : string)
  (w : World) (result : APIAnswer) :
  fst (ask_question rt self q w) = Return result ->
  Forall rebuilt (sources result).
Proof.
  unfold ask_question.
  destruct ((q =? "") || (strip q =? "")); [discriminate|].
  intros H.
  apply ask_request_returns in H as (r & data & _ & _ & _ & C & _ & _).
  unfold convert_sources, obind in C.
  destruct (getitem rt data "sources"); [|discriminate].
  destruct (iterate rt a); [|discriminate].
  now apply omap_rebuilt in C.
Qed.

(** X11. Every source of an answer [ask_question] returns is a dict of
    [number], [title] and [url], in this order and with nothing else: what
    else the server sent with a source is dropped. *)
Theorem X11_sources_are_rebuilt (self : RAGAPIClient) (q : string)
  (w : World) (result : APIAnswer) :
  fst (ask_question rt self q w) = Return result ->
  Forall rebuilt (sources result).
Proof. apply returned_sources_are_rebuilt. Qed.

(** X12. When [sources] is [null], a bool or a number, [ask_question]
    raises the generic [APIClientError] with the interpreter's "not
    iterable" text; when it is an empty string or an empty object, the
    comprehension runs over nothing and the answer comes back without
    sources. *)
Theorem X12_sources_that_are_no_list (self : RAGAPIClient) (q : string)
  (w : World) (r : Response) (d : list (string * pyval)) (v : pyval) :
  strip q <> "" ->
  next_reply w (question_request self q) = Responds r ->
  is_success r = true ->
  decoded r = inl (PDict d) ->
  lookup "sources" d = Some v ->
  (In (type_of v) [NoneType; TBool; TInt; TFloat] ->
   fst (ask_question rt self q w)
   = Raise (Exc APIClientError
              ("Unexpected error: " ++ not_iterable rt (type_of v))))
  /\ (v = PStr "" \/ v = PDict [] ->
      forall a p,
        lookup "answer" d = Some a ->
        lookup "processing_time" d = Some p ->
        fst (ask_question rt self q w)
        = Return {| answer := a; sources := []; processing_time := p |}).
Proof.
  intros Q N S D L. rewrite (ask_question_nonblank rt self q Q). split.
  - intros T.
    rewrite (ask_request_conversion_failure self q w r (PDict d)
               (Exc TypeError (not_iterable rt (type_of v))) N S D).
    + reflexivity.
    + unfold convert_sources, getitem, obind. rewrite L.
      destruct v; cbn in T; try reflexivity;
        repeat (destruct T as [T|T]; try discriminate T); now elim T.
  - intros E a p A P.
    apply (ask_request_accepts rt self q w r (PDict d)); auto.
    + unfold convert_sources, getitem, obind. rewrite L.
      destruct E as [-> | ->]; reflexivity.
    + unfold getitem. now rewrite A.
    + unfold getitem. now rewrite P.
Qed.

(** X13. Every request [ask_question] adds to the trace carries a body that
    the server's [QuestionRequest] accepts: its [question] is a str of at
    least one character. *)
Theorem X13_request_conforms_to_the_server_model (self : RAGAPIClient)
  (q : string) (w : World) (req : Request) :
  In req (requests (trace (snd (ask_question rt self q w)))) ->
  In req (requests (trace w))
  \/ (req = question_request self q
      /\ exists body,
           json req = Some body /\ QuestionRequest_conforms body = true).
Proof.
  rewrite ask_question_effect.
  destruct (strip q =? "") eqn:E; [auto|].
  cbn [record trace]. rewrite requests_snoc. cbn. rewrite in_app_iff.
  intros [I|[<-|[]]]; [now left|]. right. split; [reflexivity|].
  eexists. split; [reflexivity|]. cbn. now rewrite E.
Qed.

Lemma convert_dumped_sources (l : list api_models.Source) :
  omap (convert_source rt) (map api_models.Source_dump l)
  = Return (map api_models.Source_dump l).
Proof.
  induction l as [|x l IH]; [reflexivity|]. cbn [map omap].
  rewrite IH. reflexivity.
Qed.

Lemma dumped_sources_valid (l : list api_models.Source) :
  forallb valid_source (map api_models.Source_dump l)
  = forallb api_models.Source_conforms l.
Proof.
  induction l as [|x l IH]; [reflexivity|]. cbn [map forallb].
  now rewrite IH.
Qed.

(** X14. When the body of a success response is the JSON object of an
    [AnswerResponse] of the server, with every declared field,
    [ask_question] returns the answer that carries the text, the sources as
    they are and in their order, and the time of that instance; and the
    answer meets the constraints of the data model exactly when the instance
    is within the bounds its [Field]s declare. *)
Theorem X14_conforming_answer_is_accepted (self : RAGAPIClient) (q : string)
  (w : World) (r : Response) (a : api_models.AnswerResponse) :
  strip q <> "" ->
  next_reply w (question_request self q) = Responds r ->
  is_success r = true ->
  decoded r = inl (api_models.AnswerResponse_dump a) ->
  let result :=
    {| answer := PStr (api_models.answer a);
       sources := map api_models.Source_dump (api_models.sources a);
       processing_time := PFloat (api_models.processing_time a) |} in
  fst (ask_question rt self q w) = Return result
  /\ valid_answer result = api_models.AnswerResponse_conforms a.
Proof.
  intros Q N S D result. split.
  - rewrite (ask_question_nonblank rt self q Q).
    apply (ask_request_accepts rt self q w r
             (api_models.AnswerResponse_dump a)); auto.
    unfold convert_sources, api_models.AnswerResponse_dump, getitem, obind.
    cbn [lookup]. cbn. apply convert_dumped_sources.
  - unfold valid_answer, api_models.AnswerResponse_conforms, result.
    cbn [processing_time sources valid_processing_time].
    rewrite dumped_sources_valid. apply andb_comm.
Qed.

End Operations.

(** ** Display of an answer *)

Section Yields.






End Yields.


Section Display.

Variable rt : Runtime.



End Display.

(** ** The prompt loop *)

Ltac same_world :=
  unfold record, extend; cbn [server environ client_failure trace];
  rewrite <- ?app_assoc; reflexivity.

Ltac run_iteration :=
  unfold iteration_with, input, try_except, print, bind, emit, ret, raise;
  cbv beta iota zeta.

Section Loop.

Variable rt : Runtime.

(** X16. A line that is an exit keyword once trimmed and lowered, or an
    interrupt at the prompt, ends the loop after the farewell: no request is
    sent and nothing that follows in the input is read. *)
Theorem X16_exit_keyword_or_interrupt_ends_the_loop
  (ask : string -> M APIAnswer) (line : string) (rest : list input_event)
  (w : World) :
  (mem (lower (strip line)) exit_keywords = true ->
   loop_with rt ask (Line line :: rest) w
   = (Returned,
      extend w [Prompt question_prompt; Input (Line line);
                Print (nl ++ "Goodbye!")]))
  /\ loop_with rt ask (Interrupt :: rest) w
     = (Returned,
        extend w [Prompt question_prompt; Input Interrupt;
                  Print (nl ++ nl ++ "Goodbye!")]).
Proof.
  split.
  - intros K. cbn [loop_with]. run_iteration. rewrite K. cbv beta iota.
    f_equal. same_world.
  - cbn [loop_with]. run_iteration.
    change (isinstance (Exc KeyboardInterrupt "") KeyboardInterrupt) with true.
    cbv beta iota. f_equal. same_world.
Qed.

(** X17. A line that is empty once trimmed does nothing: after the prompt
    and the input the loop goes on with the rest, without a request and
    without output. *)
Theorem X17_blank_line_is_skipped (ask : string -> M APIAnswer)
  (line : string) (rest : list input_event) (w : World) :
  strip line = "" ->
  loop_with rt ask (Line line :: rest) w
  = loop_with rt ask rest
      (extend w [Prompt question_prompt; Input (Line line)]).
Proof.
  intros E. cbn [loop_with]. run_iteration. rewrite E.
  change (mem (lower "") exit_keywords) with false.
  change ("" =? "") with true. cbv beta iota.
  f_equal. same_world.
Qed.

Lemma end_of_file_pass (ask : string -> M APIAnswer) (w : World) :
  iteration_with rt ask EndOfFile w
  = (Return Continue, extend w end_of_file_round).
Proof.
  run_iteration.
  change (isinstance (Exc EOFError "EOF when reading a line")
            KeyboardInterrupt) with false.
  change (isinstance (Exc EOFError "EOF when reading a line")
            ServerNotReachableError) with false.
  change (isinstance (Exc EOFError "EOF when reading a line") ServerError)
    with false.
  change (isinstance (Exc EOFError "EOF when reading a line") APIClientError)
    with false.
  change (isinstance (Exc EOFError "EOF when reading a line") Exception)
    with true.
  cbv beta iota. f_equal. same_world.
Qed.

(** X18. The end of the input does not end the loop: each time [input()]
    meets it, the loop prints "Unexpected error: EOF when reading a line"
    and a traceback and prompts again, however often. *)
Theorem X18_end_of_file_does_not_end_the_loop (ask : string -> M APIAnswer)
  (n : nat) (w : World) :
  loop_with rt ask (repeat EndOfFile n) w
  = (Waiting,
     extend w (concat (repeat end_of_file_round n)
               ++ [Prompt question_prompt])).
Proof.
  revert w. induction n as [|n IH]; intros w; cbn [repeat loop_with].
  - reflexivity.
  - rewrite end_of_file_pass, IH. f_equal. rewrite extend_extend.
    cbn [concat]. now rewrite app_assoc.
Qed.




(** X21. Once the loop has ended, by returning or by an exception, input
    that follows changes nothing. *)
Theorem X21_input_after_the_end_is_not_read (ask : string -> M APIAnswer)
  (script more : list input_event) (w : World) :
  fst (loop_with rt ask script w) <> Waiting ->
  loop_with rt ask (script ++ more) w = loop_with rt ask script w.
Proof.
  revert w. induction script as [|i rest IH]; intros w; cbn [loop_with app].
  - intros H. now elim H.
  - destruct (iteration_with rt ask i w) as [[[|]|e0] w']; auto.
Qed.

End Loop.

(** ** What can be raised *)

Section Guarded.

Variable Inv : World -> Prop.
Hypothesis Inv_extend : forall w t, Inv w -> Inv (extend w t).

Lemma guarded_ret {A : Type} (Q : exception -> Prop) (a : A) :
  guarded Inv Q (ret a).
Proof.
  intros w _. split; [discriminate|]. exists []. cbn. now rewrite extend_nil.
Qed.


Lemma guarded_lift {A : Type} (Q : exception -> Prop) (o : outcome A) :
  (forall e, o = Raise e -> Q e) -> guarded Inv Q (lift o).
Proof.
  intros H w _. split; [exact H|]. exists []. cbn. now rewrite extend_nil.
Qed.

Lemma guarded_emit (Q : exception -> Prop) (ev : event) :
  guarded Inv Q (emit ev).
Proof. intros w _. split; [discriminate|]. exists [ev]. reflexivity. Qed.


Lemma guarded_bind {A B : Type} (Q : exception -> Prop) (m : M A)
  (k : A -> M B) :
  guarded Inv Q m -> (forall a, guarded Inv Q (k a)) ->
  guarded Inv Q (bind m k).
Proof.
  intros Hm Hk w I. unfold bind. destruct (Hm w I) as (R & t & E).
  destruct (m w) as [[a|e] w']; cbn in E, R; subst w'.
  - destruct (Hk a (extend w t) (Inv_extend w t I)) as (R' & u & E').
    split; [exact R'|]. exists (t ++ u)%list. now rewrite E', extend_extend.
  - split; [intros e0 [= <-]; now apply R|]. now exists t.
Qed.



End Guarded.

Ltac guard_with leaf :=
  repeat first
    [ leaf
    | assumption
    | apply guarded_ret
    | apply guarded_emit
    | apply guarded_bind; [assumption| |intros ?]
    | match goal with
      | |- guarded _ _ (if ?b then _ else _) => destruct b eqn:?
      | |- guarded _ _ (match ?x with _ => _ end) => destruct x eqn:?
      end ].

Lemma getitem_raises (rt : Runtime) (v : pyval) (key : string)
  (e : exception) :
  getitem rt v key = Raise e -> lookup_error e.
Proof.
  unfold getitem, lookup_error. destruct v; try (intros [= <-]; eauto).
  destruct (lookup key entries); [discriminate|]. intros [= <-]. eauto.
Qed.

Lemma lookup_error_is_plain (e : exception) :
  lookup_error e ->
  plain e = true
  /\ isinstance e KeyboardInterrupt = false
  /\ isinstance e Exception = true.
Proof. intros (m & [-> | ->]); repeat split. Qed.

Section Raised.

Variable rt : Runtime.
Variable Inv : World -> Prop.
Hypothesis Inv_extend : forall w t, Inv w -> Inv (extend w t).

Lemma guarded_print (Q : exception -> Prop) (s : string) :
  guarded Inv Q (print s).
Proof. apply guarded_emit. Qed.

Lemma guarded_getitem (v : pyval) (key : string) :
  guarded Inv lookup_error (lift (getitem rt v key)).
Proof. apply guarded_lift. apply getitem_raises. Qed.

Lemma guarded_print_sources (l : list pyval) :
  guarded Inv lookup_error (print_sources rt l).
Proof.
  induction l as [|x l IH]; cbn [print_sources];
    guard_with ltac:(first [apply guarded_getitem | apply guarded_print]).
Qed.

(** [print_result] raises only what a subscript of a source raises. *)
Lemma guarded_print_result (result : APIAnswer) :
  guarded Inv lookup_error (print_result rt result).
Proof.
  unfold print_result.
  guard_with ltac:(first [ apply guarded_print_sources
                         | apply guarded_print ]).
Qed.

End Raised.

Lemma not_reachable_is_no_interrupt (e : exception) :
  isinstance e ServerNotReachableError = true ->
  isinstance e KeyboardInterrupt = false.
Proof.
  destruct e as [c m|m r|n]; [destruct c|..]; vm_compute; congruence.
Qed.

Lemma server_error_is_no_other (e : exception) :
  isinstance e ServerError = true ->
  isinstance e KeyboardInterrupt = false
  /\ isinstance e ServerNotReachableError = false.
Proof.
  destruct e as [c m|m r|n]; [destruct c|..]; vm_compute; intros H;
    try discriminate H; auto.
Qed.

Lemma client_error_is_no_interrupt (e : exception) :
  isinstance e APIClientError = true ->
  isinstance e KeyboardInterrupt = false.
Proof.
  destruct e as [c m|m r|n]; [destruct c|..]; vm_compute; congruence.
Qed.

Lemma other_exception_is_no_client_error (e : exception) :
  isinstance e Exception = true ->
  isinstance e APIClientError = false ->
  isinstance e KeyboardInterrupt = false
  /\ isinstance e ServerNotReachableError = false
  /\ isinstance e ServerError = false.
Proof.
  destruct e as [c m|m r|n]; [destruct c|..]; vm_compute; intros H1 H2;
    try discriminate H1; try discriminate H2; auto.
Qed.

Section LoopErrors.

Variable rt : Runtime.

Lemma asking_world (line : string) (w : World) :
  record (Print (nl ++ "Searching Wikipedia and generating answer..."))
    (record (Input (Line line)) (record (Prompt question_prompt) w))
  = asking line w.
Proof. unfold asking. same_world. Qed.

(** X20. When the client fails for a question, the loop prints the error
    and goes on: for [ServerNotReachableError] the error and the advice to
    restart the server, for [ServerError] the error, for another
    [APIClientError] the error under another heading, and for any other
    [Exception] (the decoding error of a malformed answer among them)
    "Unexpected error" and a traceback. *)
Theorem X20_errors_of_a_question_are_displayed (ask : string -> M APIAnswer)
  (line : string) (w w' : World) (e : exception) :
  mem (lower (strip line)) exit_keywords = false ->
  strip line <> "" ->
  ask (strip line) (asking line w) = (Raise e, w') ->
  (isinstance e ServerNotReachableError = true ->
   iteration_with rt ask (Line line) w
   = (Return Continue,
      extend w' [Print (nl ++ "❌ Server Error: " ++ str_exc e);
                 Print (nl ++ "The server may have stopped. Please restart it:");
                 Print "  nix run .#server"]))
  /\ (isinstance e ServerError = true ->
      iteration_with rt ask (Line line) w
      = (Return Continue,
         extend w' [Print (nl ++ "❌ Server Error: " ++ str_exc e)]))
  /\ (isinstance e APIClientError = true ->
      isinstance e ServerNotReachableError = false ->
      isinstance e ServerError = false ->
      iteration_with rt ask (Line line) w
      = (Return Continue, extend w' [Print (nl ++ "❌ Error: " ++ str_exc e)]))
  /\ (isinstance e Exception = true ->
      isinstance e APIClientError = false ->
      iteration_with rt ask (Line line) w
      = (Return Continue,
         extend w' [Print (nl ++ "Unexpected error: " ++ str_exc e);
                    PrintExc e])).
Proof.
  intros K Q H. apply String.eqb_neq in Q.
  assert (R : forall o, iteration_with rt ask (Line line) w = o <->
              (if isinstance e KeyboardInterrupt then
                 (Return Break, extend w' [Print (nl ++ nl ++ "Goodbye!")])
               else if isinstance e ServerNotReachableError then
                 (Return Continue,
                  extend w' [Print (nl ++ "❌ Server Error: " ++ str_exc e);
                             Print (nl ++ "The server may have stopped. Please restart it:");
                             Print "  nix run .#server"])
               else if isinstance e ServerError then
                 (Return Continue,
                  extend w' [Print (nl ++ "❌ Server Error: " ++ str_exc e)])
               else if isinstance e APIClientError then
                 (Return Continue,
                  extend w' [Print (nl ++ "❌ Error: " ++ str_exc e)])
               else if isinstance e Exception then
                 (Return Continue,
                  extend w' [Print (nl ++ "Unexpected error: " ++ str_exc e);
                             PrintExc e])
               else (Raise e, w')) = o).
  { intros o. run_iteration. rewrite K, Q. cbv beta iota.
    rewrite asking_world, H. cbv beta iota.
    destruct (isinstance e KeyboardInterrupt);
      [|destruct (isinstance e ServerNotReachableError);
        [|destruct (isinstance e ServerError);
          [|destruct (isinstance e APIClientError);
            [|destruct (isinstance e Exception)]]]];
      cbv beta iota;
      (split; intros <-; [symmetry|]; f_equal; same_world). }
  repeat split.
  - intros S. apply R. now rewrite (not_reachable_is_no_interrupt e S), S.
  - intros S. apply R. destruct (server_error_is_no_other e S) as [-> ->].
    now rewrite S.
  - intros A N S. apply R.
    now rewrite (client_error_is_no_interrupt e A), N, S, A.
  - intros X A. apply R.
    destruct (other_exception_is_no_client_error e X A) as (-> & -> & ->).
    now rewrite A, X.
Qed.

Lemma startup_reachable (cli : RAGCLI) (w w1 : World) (h : APIHealth) :
  check_health rt (api_client cli)
    (extend w [Print "Checking server connection..."])
  = (Return h, w1) ->
  startup rt cli w
  = (Return tt,
     extend w1
       (if eq_str (status h) "healthy" then
          [Print "✓ Connected to server"; Print ""]
        else
          Print ("⚠ Server status: " ++ py_str rt (status h))
          :: (if truthy (health_message h) then
                [Print ("  " ++ py_str rt (health_message h))]
              else [])
          ++ [Print ""])).
Proof.
  intros H. unfold startup, try_except, print, bind, emit, ret.
  cbv beta iota.
  change (record (Print "Checking server connection...") w)
    with (extend w [Print "Checking server connection..."]).
  rewrite H. cbv beta iota.
  destruct (eq_str (status h) "healthy"); cbv beta iota.
  - f_equal. same_world.
  - destruct (truthy (health_message h)); cbv beta iota.
    + f_equal. same_world.
    + unfold ret. f_equal. same_world.
Qed.

(** X23. When the server answers the health check, the start never ends
    the session: for the status "healthy" it prints the confirmation, for
    any other status the warning with the status, and the message when there
    is one; then an empty line. *)
Theorem X23_reachable_server_starts_the_session (cli : RAGCLI)
  (w w1 : World) (h : APIHealth) :
  check_health rt (api_client cli)
    (extend w [Print "Checking server connection..."])
  = (Return h, w1) ->
  startup rt cli w
  = (Return tt,
     extend w1
       (if eq_str (status h) "healthy" then
          [Print "✓ Connected to server"; Print ""]
        else
          Print ("⚠ Server status: " ++ py_str rt (status h))
          :: (if truthy (health_message h) then
                [Print ("  " ++ py_str rt (health_message h))]
              else [])
          ++ [Print ""])).
Proof. apply startup_reachable. Qed.

End LoopErrors.

Section LoopEnds.

Variable rt : Runtime.

Lemma print_result_never_interrupts (result : APIAnswer) (w : World)
  (e : exception) :
  fst (print_result rt result w) = Raise e ->
  isinstance e KeyboardInterrupt = false.
Proof.
  intros H.
  destruct (guarded_print_result rt (fun _ => True) (fun _ _ _ => I) result
              w I) as [R _].
  now apply lookup_error_is_plain, R.
Qed.

Lemma iteration_breaks (ask : string -> M APIAnswer) (i : input_event)
  (w : World) :
  fst (iteration_with rt ask i w) = Return Break ->
  i = Interrupt
  \/ (exists line,
        i = Line line /\ mem (lower (strip line)) exit_keywords = true)
  \/ (exists line w2 e,
        i = Line line
        /\ mem (lower (strip line)) exit_keywords = false
        /\ strip line <> ""
        /\ ask (strip line) (asking line w) = (Raise e, w2)
        /\ isinstance e KeyboardInterrupt = true).
Proof.
  destruct i as [line| |]; [|now left|now rewrite end_of_file_pass].
  intros H. right. revert H. run_iteration.
  destruct (mem (lower (strip line)) exit_keywords) eqn:K; [eauto|].
  destruct (strip line =? "") eqn:Q; [discriminate|]. cbv beta iota.
  apply String.eqb_neq in Q. rewrite asking_world.
  destruct (ask (strip line) (asking line w)) as [[result|e] w2] eqn:A.
  - destruct (print_result rt result w2) as [[[]|e] w3] eqn:P;
      [discriminate|].
    assert (N : isinstance e KeyboardInterrupt = false).
    { apply (print_result_never_interrupts result w2). now rewrite P. }
    rewrite N.
    destruct (isinstance e ServerNotReachableError); [discriminate|].
    destruct (isinstance e ServerError); [discriminate|].
    destruct (isinstance e APIClientError); [discriminate|].
    destruct (isinstance e Exception); discriminate.
  - destruct (isinstance e KeyboardInterrupt) eqn:N.
    + intros _. right. exists line, w2, e. auto.
    + destruct (isinstance e ServerNotReachableError); [discriminate|].
      destruct (isinstance e ServerError); [discriminate|].
      destruct (isinstance e APIClientError); [discriminate|].
      destruct (isinstance e Exception); discriminate.
Qed.

(** X22. The loop returns only for one of three reasons.  When it
    returns, it has passed through some inputs [before] to a prompt, in the
    world [w1], and the input [i] it read there is an interrupt, or a line
    that is an exit keyword once trimmed and lowered, or a question for
    which the client's operation, called in the world of that very pass,
    raised a [KeyboardInterrupt]. *)
Theorem X22_the_loop_returns_only_on_request (ask : string -> M APIAnswer)
  (script : list input_event) (w : World) :
  fst (loop_with rt ask script w) = Returned ->
  exists before i rest w1,
    script = (before ++ i :: rest)%list
    /\ loop_with rt ask before w
       = (Waiting, record (Prompt question_prompt) w1)
    /\ (i = Interrupt
        \/ (exists line,
              i = Line line
              /\ mem (lower (strip line)) exit_keywords = true)
        \/ (exists line w2 e,
              i = Line line
              /\ mem (lower (strip line)) exit_keywords = false
              /\ strip line <> ""
              /\ ask (strip line) (asking line w1) = (Raise e, w2)
              /\ isinstance e KeyboardInterrupt = true)).
Proof.
  revert w. induction script as [|i rest IH]; intros w; cbn [loop_with].
  - discriminate.
  - destruct (iteration_with rt ask i w) as [[[|]|e] w'] eqn:I.
    + intros H. destruct (IH w' H) as (before & j & rest' & w1 & -> & L & R).
      exists (i :: before), j, rest', w1. split; [reflexivity|].
      split; [|exact R]. cbn [loop_with]. now rewrite I.
    + intros _. exists [], i, rest, w. split; [reflexivity|].
      split; [reflexivity|].
      apply (iteration_breaks ask i w). now rewrite I.
    + discriminate.
Qed.

Lemma requests_app (a b : list event) :
  requests (a ++ b) = (requests a ++ requests b)%list.
Proof.
  induction a as [|x a IH]; [reflexivity|].
  destruct x; cbn; now rewrite IH.
Qed.

Lemma requests_none (t : list event) :
  forallb no_send t = true -> requests t = [].
Proof.
  induction t as [|x t IH]; [reflexivity|]. cbn. intros H.
  apply andb_true_iff in H as [X H]. destruct x; try discriminate X; auto.
Qed.

(** X25. For a line that is a question, a pass of the loop sends one
    request, whatever the server answers and whatever is displayed: the POST
    whose body is the trimmed line under [question]. *)
Theorem X25_one_request_for_a_question (self : RAGCLI) (line : string)
  (w : World) :
  mem (lower (strip line)) exit_keywords = false ->
  strip line <> "" ->
  requests (trace (snd (iteration rt self (Line line) w)))
  = (requests (trace w)
     ++ [{| method := POST;
            url := base_url (api_client self) ++ "/api/v1/ask";
            json := Some (PDict [("question", PStr (strip line))]) |}])%list.
Proof.
  intros K Q.
  assert (S : (strip (strip line) =? "") = false)
    by (rewrite strip_idempotent; now apply String.eqb_neq).
  assert (A : forall w0,
             snd (ask_question rt (api_client self) (strip line) w0)
             = record (Send {| method := POST;
                               url := base_url (api_client self)
                                      ++ "/api/v1/ask";
                               json := Some (PDict [("question",
                                                     PStr (strip line))]) |})
                 w0).
  { intros w0. rewrite ask_question_effect, S. unfold question_request.
    now rewrite strip_idempotent. }
  apply String.eqb_neq in Q.
  unfold iteration. run_iteration. rewrite K, Q. cbv beta iota.
  rewrite asking_world.
  specialize (A (asking line w)).
  destruct (ask_question rt (api_client self) (strip line) (asking line w))
    as [[result|e] w1]; cbn [snd] in A; subst w1.
  - assert (P : adds_only no_send (print_result rt result))
      by (apply adds_print_result; reflexivity).
    match goal with
    | |- context [print_result rt result ?w1] =>
        destruct (P w1) as (t & E & F);
        destruct (print_result rt result w1) as [[[]|e] w2];
        cbn [snd] in E; subst w2
    end.
    + cbn [snd]. unfold asking, record, extend. cbn [trace].
      rewrite !requests_app, (requests_none t F). cbn [requests].
      now rewrite !app_nil_r.
    + destruct (isinstance e KeyboardInterrupt);
        [|destruct (isinstance e ServerNotReachableError);
          [|destruct (isinstance e ServerError);
            [|destruct (isinstance e APIClientError);
              [|destruct (isinstance e Exception)]]]];
        cbn [snd]; unfold asking, record, extend; cbn [trace];
        rewrite !requests_app, (requests_none t F); cbn [requests];
        now rewrite !app_nil_r.
  - destruct (isinstance e KeyboardInterrupt);
      [|destruct (isinstance e ServerNotReachableError);
        [|destruct (isinstance e ServerError);
          [|destruct (isinstance e APIClientError);
            [|destruct (isinstance e Exception)]]]];
      cbn [snd]; unfold asking, record, extend; cbn [trace];
      rewrite !requests_app; cbn [requests];
      now rewrite !app_nil_r.
Qed.

End LoopEnds.

(** ** How the process ends *)


Section ProcessEnd.

Variable rt : Runtime.









End ProcessEnd.

Section ExitCodes.

Variable rt : Runtime.








End ExitCodes.

Section FirstRequest.

Variable rt : Runtime.

Lemma loop_requests (self : RAGCLI) (script : list input_event) (w : World) :
  exists more,
    requests (trace (snd (loop rt self script w)))
    = (requests (trace w) ++ more)%list.
Proof.
  assert (A : adds_only any_event (loop rt self script)).
  { apply adds_loop; try reflexivity.
    intros q. apply adds_ask_question; reflexivity. }
  destruct (A w) as (t & E & _). rewrite E. exists (requests t).
  unfold extend. cbn [trace]. apply requests_app.
Qed.

(** X26. The health check is the first request of every session: whatever
    the server does and whatever is typed, the requests of [run] start with
    the GET of the health check. *)
Theorem X26_the_health_check_comes_first (self : RAGCLI)
  (script : list input_event) (w : World) :
  exists more,
    requests (trace (snd (run rt self script w)))
    = (requests (trace w) ++ health_request (api_client self) :: more)%list.
Proof.
  assert (Q : adds_only no_send
                (print_banner ;; print "Checking server connection...")).
  { apply adds_bind; [apply adds_print_banner; reflexivity|].
    intros _. apply adds_emit. reflexivity. }
  destruct (Q w) as (t0 & E0 & F0).
  assert (S1 : forall o w1,
             check_health rt (api_client self)
               (snd ((print_banner ;; print "Checking server connection...") w))
             = (o, w1) ->
             requests (trace w1)
             = (requests (trace w) ++ [health_request (api_client self)])%list).
  { intros o w1 H. apply (f_equal snd) in H. cbn [snd] in H.
    rewrite check_health_sends, E0 in H. subst w1.
    unfold record, extend. cbn [trace].
    rewrite !requests_app, (requests_none t0 F0). cbn [requests].
    now rewrite app_nil_r. }
  destruct (check_health rt (api_client self)
              (snd ((print_banner ;; print "Checking server connection...") w)))
    as [[h|e] w1] eqn:H; specialize (S1 _ _ eq_refl).
  - assert (U : (print_banner ;; startup rt self) w
                = startup rt self (snd (print_banner w))) by reflexivity.
    unfold run. rewrite U.
    rewrite (startup_reachable rt self (snd (print_banner w)) w1 h H).
    match goal with
    | |- context [loop rt self script ?w2] =>
        destruct (loop_requests self script w2) as (more & L);
        rewrite L; exists more
    end.
    unfold extend. cbn [trace]. rewrite requests_app, S1.
    destruct (eq_str (status h) "healthy");
      [|destruct (truthy (health_message h))];
      cbn [requests app]; now rewrite app_nil_r, <- app_assoc.
  - unfold run. rewrite (startup_after_failure rt self w w1 e H).
    destruct (isinstance e ServerNotReachableError);
      [|destruct (isinstance e Exception)].
    + exists []. cbn [snd]. unfold record. cbn [trace].
      rewrite !requests_app, S1. cbn [requests]. now rewrite !app_nil_r.
    + match goal with
      | |- context [loop rt self script ?w2] =>
          destruct (loop_requests self script w2) as (more & L);
          rewrite L; exists more
      end.
      unfold record. cbn [trace]. rewrite !requests_app, S1.
      cbn [requests]. now rewrite !app_nil_r, <- app_assoc.
    + exists []. cbn [snd]. now rewrite S1.
Qed.

End FirstRequest.

(** ** The client as a context manager *)

Lemma with_client_runs {A : Type} (manager : RAGAPIClient)
  (body : RAGAPIClient -> M A) (w : World) :
  with_client manager body w
  = (fst (body manager w), record Release (snd (body manager w))).
Proof.
  unfold with_client, RAGAPIClient_enter, RAGAPIClient_exit, close,
    bind, emit, ret, raise.
  now destruct (body manager w) as [[a|e] w1].
Qed.

(** X27. Used as a context manager, the client hands itself to the body,
    lets the body's result or exception through unchanged, and releases the
    connection once, after the body: when the body releases nothing, the
    block releases exactly one connection and sends the requests of the body
    and no other. *)
Theorem X27_context_manager_releases_once {A : Type}
  (manager : RAGAPIClient) (body : RAGAPIClient -> M A) (w : World) :
  adds_only no_release (body manager) ->
  fst (with_client manager body w) = fst (body manager w)
  /\ snd (with_client manager body w)
     = record Release (snd (body manager w))
  /\ releases (trace (snd (with_client manager body w)))
     = S (releases (trace w))
  /\ requests (trace (snd (with_client manager body w)))
     = requests (trace (snd (body manager w))).
Proof.
  intros H. rewrite with_client_runs.
  cbn [fst snd]. repeat split.
  - destruct (H w) as (t & E & F). rewrite E.
    unfold releases, record, extend. cbn [trace].
    rewrite filter_app, (filter_extend is_release _ t F). cbn [filter is_release].
    rewrite length_app. cbn [length]. lia.
  - unfold record. cbn [trace]. rewrite requests_app. cbn [requests].
    apply app_nil_r.
Qed.

(* ------------------------------------------------------------------ *)
(** ** Further scenarios *)

Lemma france_is_a_question : strip france <> "".
Proof. vm_compute. discriminate. Qed.

Lemma X1_witness :
  client_failure (world_of paris_server) = None
  /\ (exists self tail,
        RAGAPIClient_init (Some "http://localhost:8000//") default_timeout
          (world_of paris_server)
        = (Return self, record Acquire (world_of paris_server))
        /\ resolve_url (Some "http://localhost:8000//") (world_of paris_server)
           = base_url self ++ tail
        /\ all_chars slash tail = true
        /\ ends_with slash (base_url self) = false
        /\ timeout self = default_timeout)
  /\ RAGAPIClient_init None default_timeout (proxy_world paris_server)
     = (Raise (Exc ValueError "Unknown scheme for proxy URL URL('foo://bar')"),
        proxy_world paris_server).
Proof.
  split; [reflexivity|]. split.
  - exact (proj1 (X1_base_url_has_no_trailing_slash
                    (Some "http://localhost:8000//") default_timeout
                    (world_of paris_server))
             eq_refl).
  - exact (proj2 (X1_base_url_has_no_trailing_slash None default_timeout
                    (proxy_world paris_server))
             _ eq_refl).
Defined.

Lemma X2_witness :
  next_reply (world_of paris_server) (health_request local_client)
  = Responds healthy
  /\ is_success healthy = true
  /\ fst (check_health cpython local_client (world_of paris_server))
     = Return {| status := PStr "healthy";
                 ollama_accessible := PBool true;
                 health_message := PNone |}.
Proof.
  split; [reflexivity|]. split; [reflexivity|].
  exact (X2_health_is_read_from_the_body cpython local_client
           (world_of paris_server) healthy _ _ _
           eq_refl eq_refl eq_refl eq_refl eq_refl).
Defined.

Lemma X3_witness :
  next_reply (world_of partial_server) (health_request local_client)
  = Responds (json_response 200 (PDict [("status", PStr "healthy")]))
  /\ lookup "ollama_accessible" [("status", PStr "healthy")] = None
  /\ fst (check_health cpython local_client (world_of partial_server))
     = Raise (Exc APIClientError "Unexpected error: 'ollama_accessible'").
Proof.
  split; [reflexivity|]. split; [reflexivity|].
  exact (proj2 (X3_health_without_required_key cpython local_client
                  (world_of partial_server) _ [("status", PStr "healthy")]
                  eq_refl eq_refl eq_refl)
           (PStr "healthy") eq_refl eq_refl).
Defined.

Lemma X4_witness :
  next_reply (world_of degraded_server) (health_request local_client)
  = Responds (json_response 500 (PDict [("detail", PStr "boom")]))
  /\ is_success (json_response 500 (PDict [("detail", PStr "boom")])) = false
  /\ fst (check_health cpython local_client (world_of degraded_server))
     = Raise (Exc ServerError "Server returned error: 500").
Proof.
  split; [reflexivity|]. split; [reflexivity|].
  exact (f_equal fst
           (X4_health_failure_status cpython local_client
              (world_of degraded_server) _ eq_refl eq_refl)).
Defined.

Lemma X6_witness :
  next_reply (world_of interrupted_server) (health_request local_client)
  = Fails (Exc KeyboardInterrupt "")
  /\ issubclass KeyboardInterrupt Exception = false
  /\ strip france <> ""
  /\ fst (check_health cpython local_client (world_of interrupted_server))
     = Raise (Exc KeyboardInterrupt "")
  /\ fst (ask_question cpython local_client france
            (world_of interrupted_server))
     = Raise (Exc KeyboardInterrupt "").
Proof.
  split; [reflexivity|]. split; [reflexivity|].
  split; [exact france_is_a_question|].
  exact (X6_interrupts_pass_through cpython local_client france
           (world_of interrupted_server) KeyboardInterrupt ""
           eq_refl eq_refl eq_refl france_is_a_question).
Defined.

Lemma X7_witness :
  next_reply (world_of bare_server) (question_request local_client france)
  = Responds (json_response 200 (PDict [("answer", PStr "Paris")]))
  /\ lookup "sources" [("answer", PStr "Paris")] = None
  /\ fst (ask_question cpython local_client france (world_of bare_server))
     = Raise (Exc APIClientError "Unexpected error: 'sources'").
Proof.
  split; [reflexivity|]. split; [reflexivity|].
  exact (proj1 (X7_answer_without_required_key cpython local_client france
                  (world_of bare_server) _ [("answer", PStr "Paris")]
                  france_is_a_question eq_refl eq_refl eq_refl)
           eq_refl).
Defined.

Lemma X8_witness :
  well_formed_source (PDict [("number", PInt 1); ("url", PStr "http://x")])
  = false
  /\ exists key,
       In key ["number"; "title"; "url"]
       /\ lookup key [("number", PInt 1); ("url", PStr "http://x")] = None
       /\ fst (ask_question cpython local_client france
                 (world_of partial_server))
          = Raise (Exc APIClientError
                     ("Unexpected error: " ++ py_repr cpython (PStr key))).
Proof.
  split; [reflexivity|].
  exact (X8_incomplete_source_fails_the_answer cpython local_client france
           (world_of partial_server) _ _
           [("number", PInt 1); ("url", PStr "http://x")] [] []
           france_is_a_question eq_refl eq_refl eq_refl eq_refl eq_refl
           eq_refl).
Defined.

Lemma X9_witness :
  next_reply (world_of terse_server) (question_request local_client france)
  = Responds (json_response 500 (PDict [("error", PStr "boom")]))
  /\ lookup "detail" [("error", PStr "boom")] = None
  /\ fst (ask_question cpython local_client france (world_of terse_server))
     = Raise (Exc ServerError "Server error (500): {'error': 'boom'}").
Proof.
  split; [reflexivity|]. split; [reflexivity|].
  exact (proj1 (X9_failure_body_without_detail cpython local_client france
                  (world_of terse_server) _ _
                  france_is_a_question eq_refl eq_refl eq_refl)
           [("error", PStr "boom")] eq_refl eq_refl).
Defined.

Lemma X11_witness :
  fst (ask_question cpython local_client france (world_of paris_server))
  = Return paris_answer
  /\ Forall rebuilt (sources paris_answer).
Proof.
  assert (H : fst (ask_question cpython local_client france
                     (world_of paris_server)) = Return paris_answer)
    by (vm_compute; reflexivity).
  split; [exact H|].
  exact (X11_sources_are_rebuilt cpython local_client france
           (world_of paris_server) paris_answer H).
Defined.

Lemma X12_witness :
  next_reply (world_of null_sources_server)
    (question_request local_client france)
  = Responds (json_response 200
                (PDict [("answer", PStr "Paris");
                        ("sources", PNone);
                        ("processing_time", PFloat 0.5%float)]))
  /\ fst (ask_question cpython local_client france
            (world_of null_sources_server))
     = Raise (Exc APIClientError
                "Unexpected error: 'NoneType' object is not iterable").
Proof.
  split; [reflexivity|].
  exact (proj1 (X12_sources_that_are_no_list cpython local_client france
                  (world_of null_sources_server) _ _ PNone
                  france_is_a_question eq_refl eq_refl eq_refl eq_refl)
           (or_introl eq_refl)).
Defined.

Lemma X13_witness :
  In (question_request local_client france)
    (requests (trace (snd (ask_question cpython local_client france
                             (world_of paris_server)))))
  /\ (In (question_request local_client france)
        (requests (trace (world_of paris_server)))
      \/ (question_request local_client france
          = question_request local_client france
          /\ exists body,
               json (question_request local_client france) = Some body
               /\ QuestionRequest_conforms body = true)).
Proof.
  assert (H : In (question_request local_client france)
                (requests (trace (snd (ask_question cpython local_client
                                         france (world_of paris_server))))))
    by (vm_compute; left; reflexivity).
  split; [exact H|].
  exact (X13_request_conforms_to_the_server_model cpython local_client france
           (world_of paris_server) _ H).
Defined.

Lemma X14_witness :
  strip france <> ""
  /\ next_reply (world_of paris_server) (question_request local_client france)
     = Responds
         (json_response 200
            (api_models.AnswerResponse_dump
               {| api_models.answer := "Paris";
                  api_models.sources :=
                    [{| api_models.number := 1;
                        api_models.title := "France";
                        api_models.url := "http://x" |}];
                  api_models.processing_time := 0.5%float |}))
  /\ fst (ask_question cpython local_client france (world_of paris_server))
     = Return paris_answer
  /\ valid_answer paris_answer = true.
Proof.
  split; [exact france_is_a_question|]. split; [reflexivity|].
  exact (X14_conforming_answer_is_accepted cpython local_client france
           (world_of paris_server) _
           {| api_models.answer := "Paris";
              api_models.sources :=
                [{| api_models.number := 1;
                    api_models.title := "France";
                    api_models.url := "http://x" |}];
              api_models.processing_time := 0.5%float |}
           france_is_a_question eq_refl eq_refl eq_refl).
Defined.


Lemma X16_witness :
  mem (lower (strip "  QuIt ")) exit_keywords = true
  /\ loop_with cpython (ask_question cpython local_client)
       [Line "  QuIt "; Line france] (world_of paris_server)
     = (Returned,
        extend (world_of paris_server)
          [Prompt question_prompt; Input (Line "  QuIt ");
           Print (nl ++ "Goodbye!")]).
Proof.
  split; [reflexivity|].
  exact (proj1 (X16_exit_keyword_or_interrupt_ends_the_loop cpython
                  (ask_question cpython local_client) "  QuIt "
                  [Line france] (world_of paris_server))
           eq_refl).
Defined.

Lemma X17_witness :
  strip "   " = ""
  /\ loop_with cpython (ask_question cpython local_client)
       [Line "   "; Line "quit"] (world_of paris_server)
     = loop_with cpython (ask_question cpython local_client) [Line "quit"]
         (extend (world_of paris_server)
            [Prompt question_prompt; Input (Line "   ")]).
Proof.
  split; [reflexivity|].
  exact (X17_blank_line_is_skipped cpython (ask_question cpython local_client)
           "   " [Line "quit"] (world_of paris_server) eq_refl).
Defined.


Lemma X20_witness :
  mem (lower (strip france)) exit_keywords = false
  /\ strip france <> ""
  /\ fst (ask_question cpython local_client (strip france)
            (asking france (world_of refusing_server)))
     = Raise (Exc ServerNotReachableError
                "Cannot connect to server at http://localhost:8000. Make sure the server is running with: nix run .#server")
  /\ iteration_with cpython (ask_question cpython local_client) (Line france)
       (world_of refusing_server)
     = (Return Continue,
        extend
          (snd (ask_question cpython local_client (strip france)
                  (asking france (world_of refusing_server))))
          [Print (nl ++ "❌ Server Error: "
                  ++ "Cannot connect to server at http://localhost:8000. Make sure the server is running with: nix run .#server");
           Print (nl ++ "The server may have stopped. Please restart it:");
           Print "  nix run .#server"]).
Proof.
  assert (H : ask_question cpython local_client (strip france)
                (asking france (world_of refusing_server))
              = (Raise (Exc ServerNotReachableError
                          "Cannot connect to server at http://localhost:8000. Make sure the server is running with: nix run .#server"),
                 snd (ask_question cpython local_client (strip france)
                        (asking france (world_of refusing_server)))))
    by (apply injective_projections; [vm_compute; reflexivity | reflexivity]).
  split; [reflexivity|]. split; [exact france_is_a_question|].
  split; [exact (f_equal fst H)|].
  exact (proj1 (X20_errors_of_a_question_are_displayed cpython
                  (ask_question cpython local_client) france
                  (world_of refusing_server) _ _
                  eq_refl france_is_a_question H)
           eq_refl).
Defined.

Lemma X21_witness :
  fst (loop_with cpython (ask_question cpython local_client) [Line "quit"]
         (world_of paris_server)) <> Waiting
  /\ loop_with cpython (ask_question cpython local_client)
       ([Line "quit"] ++ [Line france]) (world_of paris_server)
     = loop_with cpython (ask_question cpython local_client) [Line "quit"]
         (world_of paris_server).
Proof.
  assert (H : fst (loop_with cpython (ask_question cpython local_client)
                     [Line "quit"] (world_of paris_server)) <> Waiting)
    by (vm_compute; discriminate).
  split; [exact H|].
  exact (X21_input_after_the_end_is_not_read cpython
           (ask_question cpython local_client) [Line "quit"] [Line france]
           (world_of paris_server) H).
Defined.

Lemma X22_witness :
  fst (loop_with cpython (ask_question cpython local_client)
         [Line france; Line "exit"] (world_of paris_server)) = Returned
  /\ exists before i rest w1,
       [Line france; Line "exit"] = (before ++ i :: rest)%list
       /\ loop_with cpython (ask_question cpython local_client) before
            (world_of paris_server)
          = (Waiting, record (Prompt question_prompt) w1)
       /\ (i = Interrupt
           \/ (exists line,
                 i = Line line
                 /\ mem (lower (strip line)) exit_keywords = true)
           \/ (exists line w2 e,
                 i = Line line
                 /\ mem (lower (strip line)) exit_keywords = false
                 /\ strip line <> ""
                 /\ ask_question cpython local_client (strip line)
                      (asking line w1)
                    = (Raise e, w2)
                 /\ isinstance e KeyboardInterrupt = true)).
Proof.
  assert (H : fst (loop_with cpython (ask_question cpython local_client)
                     [Line france; Line "exit"] (world_of paris_server))
              = Returned)
    by (vm_compute; reflexivity).
  split; [exact H|].
  exact (X22_the_loop_returns_only_on_request cpython
           (ask_question cpython local_client) [Line france; Line "exit"]
           (world_of paris_server) H).
Defined.

Lemma X23_witness :
  fst (check_health cpython local_client
         (extend (world_of unhealthy_server)
            [Print "Checking server connection..."]))
  = Return {| status := PStr "unhealthy";
              ollama_accessible := PBool false;
              health_message := PStr "Ollama is not accessible" |}
  /\ startup cpython local_cli (world_of unhealthy_server)
     = (Return tt,
        extend
          (snd (check_health cpython local_client
                  (extend (world_of unhealthy_server)
                     [Print "Checking server connection..."])))
          [Print "⚠ Server status: unhealthy";
           Print "  Ollama is not accessible";
           Print ""]).
Proof.
  assert (H : check_health cpython local_client
                (extend (world_of unhealthy_server)
                   [Print "Checking server connection..."])
              = (Return {| status := PStr "unhealthy";
                           ollama_accessible := PBool false;
                           health_message := PStr "Ollama is not accessible" |},
                 snd (check_health cpython local_client
                        (extend (world_of unhealthy_server)
                           [Print "Checking server connection..."]))))
    by (apply injective_projections; [vm_compute; reflexivity | reflexivity]).
  split; [exact (f_equal fst H)|].
  exact (X23_reachable_server_starts_the_session cpython local_cli
           (world_of unhealthy_server) _ _ H).
Defined.


Lemma X25_witness :
  mem (lower (strip france)) exit_keywords = false
  /\ strip france <> ""
  /\ requests (trace (snd (iteration cpython local_cli (Line france)
                             (world_of paris_server))))
     = (requests (trace (world_of paris_server))
        ++ [{| method := POST;
               url := base_url (api_client local_cli) ++ "/api/v1/ask";
               json := Some (PDict [("question", PStr (strip france))]) |}])%list.
Proof.
  split; [reflexivity|]. split; [exact france_is_a_question|].
  exact (X25_one_request_for_a_question cpython local_cli france
           (world_of paris_server) eq_refl france_is_a_question).
Defined.

Lemma X27_witness :
  adds_only no_release
    (fun w => ask_question cpython local_client france w)
  /\ fst (with_client local_client
            (fun c => ask_question cpython c france)
            (world_of refusing_server))
     = fst (ask_question cpython local_client france
              (world_of refusing_server))
  /\ snd (with_client local_client
            (fun c => ask_question cpython c france)
            (world_of refusing_server))
     = record Release
         (snd (ask_question cpython local_client france
                 (world_of refusing_server)))
  /\ releases (trace (snd (with_client local_client
                             (fun c => ask_question cpython c france)
                             (world_of refusing_server))))
     = S (releases (trace (world_of refusing_server)))
  /\ requests (trace (snd (with_client local_client
                             (fun c => ask_question cpython c france)
                             (world_of refusing_server))))
     = requests (trace (snd (ask_question cpython local_client france
                               (world_of refusing_server)))).
Proof.
  assert (H : adds_only no_release
                (fun w => ask_question cpython local_client france w))
    by (apply (adds_ask_question cpython no_release); reflexivity).
  split; [exact H|].
  exact (X27_context_manager_releases_once local_client
           (fun c => ask_question cpython c france)
           (world_of refusing_server) H).
Defined.
